(** * Exam workbook builder: layout engine and grading sheet

    A shallow embedding of [main.py]: the question model, the
    [ExcelLayoutEngine] class (its row cursor, its answer registry and the
    two worksheets it writes) and [build_professional_workbook], followed by
    a small semantics of the spreadsheet formulas the grading sheet holds. *)

From Stdlib Require Import ZArith String Ascii List Lia.
From Stdlib Require Import PrimFloat Uint63.
From Stdlib Require Import DecimalString DecimalNat DecimalFacts.
From stdpp Require Import gmap strings list fin_maps sorting.

Set Warnings "-inexact-float".
Local Open Scope nat_scope.
Local Open Scope string_scope.

(** ** Python and openpyxl primitives *)

(** [str(n)] for a non-negative [int]. *)
Definition str_nat (n : nat) : string :=
  NilEmpty.string_of_uint (Nat.to_uint n).

(** [sep.join(parts)]. *)
Definition join (sep : string) (parts : list string) : string :=
  String.concat sep parts.

(** [s.replace(old, new)] for single characters. *)
Fixpoint replace_char (old new : ascii) (s : string) : string :=
  match s with
  | EmptyString => EmptyString
  | String c rest =>
      String (if Ascii.eqb c old then new else c) (replace_char old new rest)
  end.

Definition dquote : ascii := ascii_of_nat 34.
Definition squote : ascii := ascii_of_nat 39.
Definition dquote_str : string := String dquote EmptyString.

(** [openpyxl.utils.get_column_letter]: 1 -> A, 26 -> Z, 27 -> AA, ... *)
Fixpoint column_letters (fuel n : nat) : string :=
  match fuel with
  | O => EmptyString
  | S fuel' =>
      if Nat.eqb n 0 then EmptyString
      else column_letters fuel' ((n - 1) / 26)
             +:+ String (ascii_of_nat (65 + (n - 1) mod 26)) EmptyString
  end.

Definition get_column_letter (col : nat) : string := column_letters col col.

(** The coordinate of a cell, as the f-string
    [f"{get_column_letter(col)}{row}"] builds it. *)
Definition coordinate (col row : nat) : string :=
  get_column_letter col +:+ str_nat row.

(** A value a cell or a JSON field can hold ([List[Any]] rows). *)
Inductive pyvalue :=
| PyNone
| PyStr (s : string)
| PyInt (z : Z)
| PyFloat (x : float)
| PyBool (b : bool).

(** ** The question model (pydantic classes) *)

Record DataTable := {
  headers : list string;
  rows : list (list pyvalue)
}.

Record SubQuestion := {
  part : string;
  sq_question : string;
  sq_answer : string;
  sq_tolerance : option float
}.

Record Question := {
  type : string;
  question : string;
  answer : option string;
  options : option (list string);
  tolerance : option float;
  data_table : option DataTable;
  subquestions : option (list SubQuestion)
}.

(** ** Styles held by the engine *)

Inductive Font := default_font | title_font | question_font | bold_font | small_font.
Inductive Alignment := default_align | left_align | center_align | table_align.
Inductive Border := default_border | thin_border.
Inductive PatternFill := default_fill | table_fill | header_fill | white_fill | answer_fill.

Record Cell := {
  value : pyvalue;
  font : Font;
  alignment : Alignment;
  border : Border;
  fill : PatternFill
}.

Definition new_cell : Cell :=
  {| value := PyNone; font := default_font; alignment := default_align;
     border := default_border; fill := default_fill |}.

Definition set_value (v : pyvalue) (c : Cell) : Cell :=
  {| value := v; font := font c; alignment := alignment c;
     border := border c; fill := fill c |}.
Definition set_font (f : Font) (c : Cell) : Cell :=
  {| value := value c; font := f; alignment := alignment c;
     border := border c; fill := fill c |}.
Definition set_alignment (a : Alignment) (c : Cell) : Cell :=
  {| value := value c; font := font c; alignment := a;
     border := border c; fill := fill c |}.
Definition set_border (b : Border) (c : Cell) : Cell :=
  {| value := value c; font := font c; alignment := alignment c;
     border := b; fill := fill c |}.
Definition set_fill (p : PatternFill) (c : Cell) : Cell :=
  {| value := value c; font := font c; alignment := alignment c;
     border := border c; fill := p |}.

(** ** Worksheets *)

Record DataValidation := {
  dv_type : string;
  formula1 : string;
  allow_blank : bool;
  sqref : list string
}.

Inductive SheetState := visible | hidden.

(** Cells are keyed by (row, column), both counted from 1. *)
Record Worksheet := {
  title : string;
  cells : gmap (nat * nat) Cell;
  row_height : gmap nat nat;
  column_width : gmap string nat;
  data_validations : list DataValidation;
  sheet_state : SheetState;
  protection_sheet : bool
}.

Definition new_sheet (name : string) : Worksheet :=
  {| title := name; cells := ∅; row_height := ∅; column_width := ∅;
     data_validations := []; sheet_state := visible;
     protection_sheet := false |}.

Definition with_cells (m : gmap (nat * nat) Cell) (ws : Worksheet) : Worksheet :=
  {| title := title ws; cells := m; row_height := row_height ws;
     column_width := column_width ws;
     data_validations := data_validations ws;
     sheet_state := sheet_state ws; protection_sheet := protection_sheet ws |}.

Definition with_title (name : string) (ws : Worksheet) : Worksheet :=
  {| title := name; cells := cells ws; row_height := row_height ws;
     column_width := column_width ws;
     data_validations := data_validations ws;
     sheet_state := sheet_state ws; protection_sheet := protection_sheet ws |}.

Definition set_row_height (row h : nat) (ws : Worksheet) : Worksheet :=
  {| title := title ws; cells := cells ws;
     row_height := <[row := h]> (row_height ws);
     column_width := column_width ws;
     data_validations := data_validations ws;
     sheet_state := sheet_state ws; protection_sheet := protection_sheet ws |}.

Definition set_column_width (col : string) (w : nat) (ws : Worksheet) : Worksheet :=
  {| title := title ws; cells := cells ws; row_height := row_height ws;
     column_width := <[col := w]> (column_width ws);
     data_validations := data_validations ws;
     sheet_state := sheet_state ws; protection_sheet := protection_sheet ws |}.

Definition add_data_validation (dv : DataValidation) (ws : Worksheet) : Worksheet :=
  {| title := title ws; cells := cells ws; row_height := row_height ws;
     column_width := column_width ws;
     data_validations := data_validations ws ++ [dv];
     sheet_state := sheet_state ws; protection_sheet := protection_sheet ws |}.

Definition set_sheet_state (s : SheetState) (ws : Worksheet) : Worksheet :=
  {| title := title ws; cells := cells ws; row_height := row_height ws;
     column_width := column_width ws;
     data_validations := data_validations ws;
     sheet_state := s; protection_sheet := protection_sheet ws |}.

Definition set_protection (b : bool) (ws : Worksheet) : Worksheet :=
  {| title := title ws; cells := cells ws; row_height := row_height ws;
     column_width := column_width ws;
     data_validations := data_validations ws;
     sheet_state := sheet_state ws; protection_sheet := b |}.

(** [ws.cell(row, column)]: the cell there, created blank when absent. *)
Definition get_cell (ws : Worksheet) (row col : nat) : Cell :=
  default new_cell (cells ws !! (row, col)).

(** The [value=v] argument of [ws.cell]: openpyxl leaves the stored value
    alone when [v] is [None]. *)
Definition store_value (v : pyvalue) (c : Cell) : Cell :=
  match v with
  | PyNone => c
  | _ => set_value v c
  end.

(** [c = ws.cell(row, column, value=v)] followed by the attribute
    assignments [style] on [c]. *)
Definition write_cell (row col : nat) (v : pyvalue) (style : Cell -> Cell)
    (ws : Worksheet) : Worksheet :=
  let c := store_value v (get_cell ws row col) in
  with_cells (<[(row, col) := style c]> (cells ws)) ws.

(** [for col, x in enumerate(xs, start=col): body(col, x)]. *)
Fixpoint for_enumerate {A S : Type} (body : nat -> A -> S -> S)
    (col : nat) (xs : list A) (s : S) : S :=
  match xs with
  | [] => s
  | x :: xs' => for_enumerate body (Datatypes.S col) xs' (body col x s)
  end.

(** [for x in xs: body(x)]. *)
Definition for_each {A S : Type} (body : A -> S -> S) (xs : list A) (s : S) : S :=
  fold_left (fun acc x => body x acc) xs s.

(** ** The layout engine *)

(** One entry of [answer_cells].  The dict built for a sub-question has no
    ['type'] key, which [ar_type = None] stands for; ['tolerance'] is always
    present and may hold [None]. *)
Record AnswerRecord := {
  question_id : string;
  cell_address : string;
  correct_answer : option string;
  ar_tolerance : option float;
  ar_type : option string
}.

Record ExcelLayoutEngine := {
  final_sheet : Worksheet;
  solution_sheet : Worksheet;
  current_row : nat;
  answer_cells : list AnswerRecord
}.

Definition with_final (ws : Worksheet) (e : ExcelLayoutEngine) : ExcelLayoutEngine :=
  {| final_sheet := ws; solution_sheet := solution_sheet e;
     current_row := current_row e; answer_cells := answer_cells e |}.

Definition with_solution (ws : Worksheet) (e : ExcelLayoutEngine) : ExcelLayoutEngine :=
  {| final_sheet := final_sheet e; solution_sheet := ws;
     current_row := current_row e; answer_cells := answer_cells e |}.

Definition with_row (r : nat) (e : ExcelLayoutEngine) : ExcelLayoutEngine :=
  {| final_sheet := final_sheet e; solution_sheet := solution_sheet e;
     current_row := r; answer_cells := answer_cells e |}.

Definition append_answer (a : AnswerRecord) (e : ExcelLayoutEngine) : ExcelLayoutEngine :=
  {| final_sheet := final_sheet e; solution_sheet := solution_sheet e;
     current_row := current_row e; answer_cells := answer_cells e ++ [a] |}.

(** [ExcelLayoutEngine.__init__] together with the fresh [Workbook()] it is
    given: the two sheets are created by [setup_sheets]. *)
Definition init : ExcelLayoutEngine :=
  {| final_sheet := new_sheet "Sheet"; solution_sheet := new_sheet "Solution";
     current_row := 2; answer_cells := [] |}.

Definition standard_widths (ws : Worksheet) : Worksheet :=
  set_column_width "F" 15 (set_column_width "E" 15 (set_column_width "D" 15
    (set_column_width "C" 15 (set_column_width "B" 50
      (set_column_width "A" 3 ws))))).

Definition setup_sheets (e : ExcelLayoutEngine) : ExcelLayoutEngine :=
  let final := with_title "Student" (final_sheet e) in
  let solution := new_sheet "Solution" in
  let final := standard_widths final in
  let solution := standard_widths solution in
  let final :=
    for_each (fun row ws =>
      for_each (fun col ws => write_cell row col PyNone (set_fill white_fill) ws)
        (seq 1 19) ws) (seq 1 99) final in
  let final :=
    write_cell 1 2 (PyStr "Exam")
      (fun c => set_fill white_fill (set_alignment center_align
                  (set_font title_font c))) final in
  let final := set_row_height 1 30 final in
  let solution :=
    for_enumerate (fun col header ws =>
      write_cell 1 col (PyStr header)
        (fun c => set_alignment center_align (set_border thin_border
                    (set_fill header_fill (set_font bold_font c)))) ws)
      9 ["Question"; "Student"; "Solution"; "Points"] solution in
  with_solution solution (with_final final e).

Definition add_spacing (n : nat) (e : ExcelLayoutEngine) : ExcelLayoutEngine :=
  with_row (current_row e + n) e.

Definition add_question_header (question_num : nat) (question_text : string)
    (e : ExcelLayoutEngine) : nat * ExcelLayoutEngine :=
  let e := add_spacing 1 e in
  let ws :=
    write_cell (current_row e) 2
      (PyStr (str_nat question_num +:+ ". " +:+ question_text))
      (fun c => set_fill white_fill (set_alignment left_align
                  (set_font bold_font c))) (final_sheet e) in
  let ws := set_row_height (current_row e) 20 ws in
  let e := with_final ws e in
  let e := with_row (current_row e + 1) e in
  (current_row e - 1, e).

Definition header_style (c : Cell) : Cell :=
  set_alignment center_align (set_border thin_border
    (set_fill header_fill (set_font bold_font c))).

Definition data_style (c : Cell) : Cell :=
  set_alignment center_align (set_fill table_fill (set_border thin_border c)).

(** The body of the loop over [data_table.rows]. *)
Definition add_data_row (row_data : list pyvalue) (e : ExcelLayoutEngine)
    : ExcelLayoutEngine :=
  let ws :=
    for_enumerate (fun col v ws =>
      write_cell (current_row e) col v data_style ws)
      3 row_data (final_sheet e) in
  with_row (current_row e + 1) (with_final ws e).

(** [None] stands for an argument that is false in [if not data_table]. *)
Definition add_data_table (dt : option DataTable) (e : ExcelLayoutEngine)
    : ExcelLayoutEngine :=
  match dt with
  | None => e
  | Some data_table =>
      let e := add_spacing 1 e in
      let ws :=
        for_enumerate (fun col header ws =>
          write_cell (current_row e) col (PyStr header) header_style ws)
          3 (headers data_table) (final_sheet e) in
      let e := with_final ws e in
      let e := with_row (current_row e + 1) e in
      let e := for_each add_data_row (rows data_table) e in
      add_spacing 1 e
  end.

Definition answer_style (c : Cell) : Cell :=
  set_fill answer_fill (set_alignment center_align (set_border thin_border c)).

Definition add_subquestion (sub_q : SubQuestion) (question_num : nat)
    (e : ExcelLayoutEngine) : string * ExcelLayoutEngine :=
  let sub_text := part sub_q +:+ ". " +:+ sq_question sub_q in
  let ws :=
    write_cell (current_row e) 2 (PyStr sub_text)
      (fun c => set_fill white_fill (set_alignment left_align
                  (set_font question_font c))) (final_sheet e) in
  let answer_col := 4 in
  let answer_cell_addr := coordinate answer_col (current_row e + 1) in
  let ws := write_cell (current_row e + 1) answer_col (PyStr "") answer_style ws in
  let e := with_final ws e in
  let e :=
    append_answer
      {| question_id := str_nat question_num +:+ part sub_q;
         cell_address := answer_cell_addr;
         correct_answer := Some (sq_answer sub_q);
         ar_tolerance := sq_tolerance sub_q;
         ar_type := None |} e in
  let e := with_row (current_row e + 2) e in
  let e := add_spacing 1 e in
  (answer_cell_addr, e).

Definition in_list (s : string) (l : list string) : bool :=
  existsb (String.eqb s) l.

(** Truth value of an [Optional[List[str]]]. *)
Definition options_truthy (o : option (list string)) : bool :=
  match o with
  | Some (_ :: _) => true
  | _ => false
  end.

Definition options_formula (opts : list string) : string :=
  let safe_options := map (replace_char dquote squote) opts in
  dquote_str +:+ join "," safe_options +:+ dquote_str.

Definition list_validation (formula cell : string) : DataValidation :=
  {| dv_type := "list"; formula1 := formula; allow_blank := true;
     sqref := [cell] |}.

Definition add_simple_question (q : Question) (question_num : nat)
    (e : ExcelLayoutEngine) : string * ExcelLayoutEngine :=
  let e := add_spacing 1 e in
  let ws :=
    write_cell (current_row e) 2
      (PyStr (str_nat question_num +:+ ". " +:+ question q))
      (fun c => set_fill white_fill (set_alignment left_align
                  (set_font question_font c))) (final_sheet e) in
  let e := with_row (current_row e + 1) (with_final ws e) in
  let answer_col := 3 in
  let answer_cell_addr := coordinate answer_col (current_row e) in
  let ws := write_cell (current_row e) answer_col (PyStr "") answer_style
              (final_sheet e) in
  let ws :=
    if in_list (type q) ["dropdown"; "multiplechoice"] && options_truthy (options q)
    then add_data_validation
           (list_validation (options_formula (default [] (options q)))
              answer_cell_addr) ws
    else if String.eqb (type q) "truefalse"
    then add_data_validation
           (list_validation (dquote_str +:+ "True,False" +:+ dquote_str)
              answer_cell_addr) ws
    else ws in
  let e := with_final ws e in
  let e :=
    append_answer
      {| question_id := str_nat question_num;
         cell_address := answer_cell_addr;
         correct_answer := answer q;
         ar_tolerance := tolerance q;
         ar_type := Some (type q) |} e in
  let e := with_row (current_row e + 1) e in
  let e := add_spacing 1 e in
  (answer_cell_addr, e).

(** ** Spreadsheet formulas

    The grading sheet holds formulas as text.  [xl_expr] is the syntax of the
    formulas this program writes and [render] their concrete text, so that
    each formula string built by [setup_grading] can be read back as a
    term.  A numeric constant is the text it is written with. *)





Section Grading.

(** [repr] of a Python [float], as the f-string [{tolerance}] prints it. *)
Variable float_repr : float -> string.

(** Truth value of an [Optional[float]]: [None] and the two zeros are
    false, every other float, [nan] included, is true. *)
Definition tolerance_truthy (t : option float) : bool :=
  match t with
  | Some x => negb (PrimFloat.eqb x 0%float)
  | None => false
  end.

(** [f"{tolerance}"]. *)
Definition fmt_tolerance (t : option float) : string :=
  match t with
  | Some q => float_repr q
  | None => "None"
  end.

Definition choice_types : list string :=
  ["truefalse"; "multiplechoice"; "dropdown"].

(** [answer_info.get('type', 'numerical')]. *)
Definition question_type (answer_info : AnswerRecord) : string :=
  default "numerical" (ar_type answer_info).

(** The three formula texts of [setup_grading], as the f-strings build
    them. *)
Definition tolerance_formula_text (t : option float) (grading_row : nat)
    : string :=
  "=IF(ABS(VALUE(K" +:+ str_nat grading_row +:+ ")-VALUE(J"
    +:+ str_nat grading_row +:+ "))<=(" +:+ fmt_tolerance t
    +:+ "*ABS(VALUE(K" +:+ str_nat grading_row +:+ "))),1,0)".

Definition text_formula_text (grading_row : nat) : string :=
  "=IF(TEXT(J" +:+ str_nat grading_row +:+ "," +:+ dquote_str +:+ "@"
    +:+ dquote_str +:+ ")=TEXT(K" +:+ str_nat grading_row +:+ ","
    +:+ dquote_str +:+ "@" +:+ dquote_str +:+ "),1,0)".

Definition default_formula_text (grading_row : nat) : string :=
  "=IF(ABS(VALUE(K" +:+ str_nat grading_row +:+ ")-VALUE(J"
    +:+ str_nat grading_row +:+ "))<=0.01,1,0)".

(** The branch of [setup_grading] that picks the grading formula. *)
Definition grading_formula (answer_info : AnswerRecord) (grading_row : nat)
    : string :=
  let tolerance := ar_tolerance answer_info in
  let question_type := question_type answer_info in
  if tolerance_truthy tolerance && String.eqb question_type "numerical"
  then tolerance_formula_text tolerance grading_row
  else if in_list question_type choice_types
  then text_formula_text grading_row
  else default_formula_text grading_row.





Definition option_pystr (o : option string) : pyvalue :=
  match o with
  | Some s => PyStr s
  | None => PyNone
  end.

Definition grading_style (col : nat) (c : Cell) : Cell :=
  let c := set_alignment center_align (set_border thin_border c) in
  if Nat.eqb col 9 then set_font bold_font c else c.

(** One iteration of the loop of [setup_grading], on the pair of the
    solution sheet and [grading_row]. *)
Definition grading_step (answer_info : AnswerRecord)
    (acc : Worksheet * nat) : Worksheet * nat :=
  let '(ws, grading_row) := acc in
  let ws := write_cell grading_row 9 (PyStr (question_id answer_info)) id ws in
  let student_formula := "=Student!" +:+ cell_address answer_info in
  let ws := write_cell grading_row 10 (PyStr student_formula) id ws in
  let ws := write_cell grading_row 11
              (option_pystr (correct_answer answer_info)) id ws in
  let ws := write_cell grading_row 12
              (PyStr (grading_formula answer_info grading_row)) id ws in
  let ws :=
    for_each (fun col ws => write_cell grading_row col PyNone (grading_style col) ws)
      (seq 9 4) ws in
  (ws, grading_row + 1).

Definition setup_grading (e : ExcelLayoutEngine) : ExcelLayoutEngine :=
  let '(ws, grading_row) :=
    for_each grading_step (answer_cells e) (solution_sheet e, 2) in
  let ws :=
    match answer_cells e with
    | [] => ws
    | _ :: _ =>
        let ws :=
          write_cell (grading_row + 1) 11 (PyStr "Total Score:")
            (fun c => set_alignment center_align (set_font bold_font c)) ws in
        write_cell (grading_row + 1) 12
          (PyStr ("=SUM(L2:L" +:+ str_nat grading_row +:+ ")"))
          (fun c => set_border thin_border (set_alignment center_align
                      (set_font bold_font c))) ws
    end in
  with_solution ws e.

(** ** The workbook assembler *)

Definition subquestions_list (q : Question) : list SubQuestion :=
  default [] (subquestions q).

(** The body of the loop over [questions]. *)
Definition render_question (q : Question) (question_num : nat)
    (layout : ExcelLayoutEngine) : ExcelLayoutEngine :=
  if String.eqb (type q) "data_table" || String.eqb (type q) "multipart"
  then
    let layout := snd (add_question_header question_num (question q) layout) in
    let layout :=
      match data_table q with
      | Some dt => add_data_table (Some dt) layout
      | None => layout
      end in
    match subquestions q with
    | Some ((_ :: _) as subs) =>
        for_each (fun sub_q l => snd (add_subquestion sub_q question_num l))
          subs layout
    | _ => layout
    end
  else snd (add_simple_question q question_num layout).

Definition render_questions (questions : list Question)
    (acc : nat * ExcelLayoutEngine) : nat * ExcelLayoutEngine :=
  for_each (fun q '(question_num, layout) =>
              (question_num + 1, render_question q question_num layout))
    questions acc.

Record Workbook := {
  wb_student : Worksheet;
  wb_solution : Worksheet
}.

(** [build_professional_workbook]: the result is the local [layout] once
    the workbook is saved, next to the files on disk after [wb.save]. *)
Definition build_professional_workbook (questions : list Question)
    (filename exam_title : string) (disk : gmap string Workbook)
    : ExcelLayoutEngine * gmap string Workbook :=
  let layout := setup_sheets init in
  let ws :=
    write_cell 1 2 PyNone
      (fun c => set_fill white_fill (set_alignment center_align
                  (set_font title_font (set_value (PyStr exam_title) c))))
      (final_sheet layout) in
  let layout := with_final ws layout in
  let '(_, layout) := render_questions questions (1, layout) in
  let layout := setup_grading layout in
  let layout :=
    with_solution (set_sheet_state hidden (solution_sheet layout)) layout in
  let layout :=
    with_final (set_protection false (final_sheet layout)) layout in
  (layout,
   <[filename := {| wb_student := final_sheet layout;
                    wb_solution := solution_sheet layout |}]> disk).

End Grading.

(** ** What the spreadsheet computes

    The workbook is evaluated by the spreadsheet application, not by this
    program.  The evaluator below covers what the grading formulas need
    and answers [None] wherever it does not model the application.
    Numbers are IEEE doubles.  A text is read as a number when it is a
    plain decimal numeral of at most 15 digits: the digits and the power
    of ten are then exact doubles and their quotient is the double
    nearest to the numeral.  [=] is decided on texts of ASCII characters,
    where it ignores letter case. *)

















(** ** Reading the registry back

    [address_position] reads a coordinate such as [D5] back into its row
    and column, the way [openpyxl.utils.coordinate_to_tuple] does. *)

Definition is_upper_letter (c : ascii) : bool :=
  Nat.leb 65 (nat_of_ascii c) && Nat.leb (nat_of_ascii c) 90.

Fixpoint split_letters (s : string) : string * string :=
  match s with
  | EmptyString => (EmptyString, EmptyString)
  | String c rest =>
      if is_upper_letter c
      then let '(a, b) := split_letters rest in (String c a, b)
      else (EmptyString, s)
  end.

Fixpoint column_index (acc : nat) (letters : string) : nat :=
  match letters with
  | EmptyString => acc
  | String c rest => column_index (acc * 26 + (nat_of_ascii c - 64)) rest
  end.

Definition address_position (addr : string) : option (nat * nat) :=
  let '(letters, digits) := split_letters addr in
  match letters, digits with
  | EmptyString, _ => None
  | _, EmptyString => None
  | _, _ =>
      match NilEmpty.uint_of_string digits with
      | Some d => Some (Nat.of_uint d, column_index 0 letters)
      | None => None
      end
  end.

(** A cell written as an answer input: empty text, with the border, the
    centring and the fill of an answer cell. *)
Definition answer_styled (c : Cell) : bool :=
  match value c, border c, alignment c, fill c with
  | PyStr EmptyString, thin_border, center_align, answer_fill => true
  | _, _, _, _ => false
  end.

Definition is_answer_cell (ws : Worksheet) (row col : nat) : bool :=
  match cells ws !! (row, col) with
  | Some c => answer_styled c
  | None => false
  end.

(** The row of the answer cell a record points to, when its address names
    an answer cell of the sheet. *)
Definition answer_row (ws : Worksheet) (a : AnswerRecord) : option nat :=
  match address_position (cell_address a) with
  | Some (row, col) => if is_answer_cell ws row col then Some row else None
  | None => None
  end.

(** ** The registry as a function of the question list

    What the walk over the questions registers, computed from the list
    alone: [row] is the cursor before the question, [n] its number. *)

Definition is_complex (q : Question) : bool :=
  String.eqb (type q) "data_table" || String.eqb (type q) "multipart".

Definition table_height (dt : option DataTable) : nat :=
  match dt with
  | Some d => length (rows d) + 3
  | None => 0
  end.

Definition sub_record (n row : nat) (sub_q : SubQuestion) : AnswerRecord :=
  {| question_id := str_nat n +:+ part sub_q;
     cell_address := coordinate 4 (row + 1);
     correct_answer := Some (sq_answer sub_q);
     ar_tolerance := sq_tolerance sub_q;
     ar_type := None |}.

Fixpoint sub_records (n row : nat) (subs : list SubQuestion) : list AnswerRecord :=
  match subs with
  | [] => []
  | sub_q :: rest => sub_record n row sub_q :: sub_records n (row + 3) rest
  end.

Definition simple_record (n row : nat) (q : Question) : AnswerRecord :=
  {| question_id := str_nat n;
     cell_address := coordinate 3 (row + 2);
     correct_answer := answer q;
     ar_tolerance := tolerance q;
     ar_type := Some (type q) |}.

Definition question_records (n row : nat) (q : Question) : list AnswerRecord :=
  if is_complex q
  then sub_records n (row + 2 + table_height (data_table q)) (subquestions_list q)
  else [simple_record n row q].

Definition question_height (q : Question) : nat :=
  if is_complex q
  then 2 + table_height (data_table q) + 3 * length (subquestions_list q)
  else 4.

Fixpoint registry (n row : nat) (questions : list Question) : list AnswerRecord :=
  match questions with
  | [] => []
  | q :: rest =>
      question_records n row q
        ++ registry (S n) (row + question_height q) rest
  end.

(** The identifiers the specification asks for: the number followed by the
    part label for each sub-question, the bare number otherwise. *)
Fixpoint question_ids (n : nat) (questions : list Question) : list string :=
  match questions with
  | [] => []
  | q :: rest =>
      (if is_complex q
       then map (fun sub_q => str_nat n +:+ part sub_q) (subquestions_list q)
       else [str_nat n])
        ++ question_ids (S n) rest
  end.

(** The values a grading row of the solution sheet holds for a record. *)
Definition cell_value (ws : Worksheet) (row col : nat) : pyvalue :=
  value (get_cell ws row col).

(** A loop [for col, x in enumerate(xs, start=c0)] whose body writes the
    cell of row [row] and column [col] with the value [val x]. *)
Definition write_row {A : Type} (row : nat) (val : A -> pyvalue)
    (style : Cell -> Cell) (c0 : nat) (xs : list A) (ws : Worksheet)
    : Worksheet :=
  for_enumerate (fun col x ws => write_cell row col (val x) style ws) c0 xs ws.

(** The validations [add_simple_question] attaches to the answer cell at
    [addr]. *)
Definition simple_validations (q : Question) (addr : string)
    : list DataValidation :=
  if in_list (type q) ["dropdown"; "multiplechoice"] && options_truthy (options q)
  then [list_validation (options_formula (default [] (options q))) addr]
  else if String.eqb (type q) "truefalse"
  then [list_validation (dquote_str +:+ "True,False" +:+ dquote_str) addr]
  else [].

(** The invariant of the registry: every record points to an answer cell
    of the student sheet above the cursor, and the rows of these cells
    increase along the registry. *)
Definition registry_sound (e : ExcelLayoutEngine) : Prop :=
  exists rows : list nat,
    Forall2 (fun a r => answer_row (final_sheet e) a = Some r)
      (answer_cells e) rows
    /\ StronglySorted lt rows
    /\ Forall (fun r => r < current_row e) rows.

(** Row [row] of the solution sheet holds the four entries of the record
    [a]: its identifier, the reference to the student's cell, the correct
    answer and the grading formula. *)
Definition emitted_row (float_repr : float -> string) (ws : Worksheet)
    (row : nat)
    (a : AnswerRecord) : Prop :=
  cell_value ws row 9 = PyStr (question_id a)
  /\ cell_value ws row 10 = PyStr ("=Student!" +:+ cell_address a)
  /\ cell_value ws row 11 = option_pystr (correct_answer a)
  /\ cell_value ws row 12 = PyStr (grading_formula float_repr a row).





(** An operation that takes the engine from [e] to [e'] wrote only rows
    from the cursor of [e] up to, and not including, the cursor of [e']. *)
Definition writes_between (e e' : ExcelLayoutEngine) : Prop :=
  forall r c, r < current_row e \/ current_row e' <= r ->
    cells (final_sheet e') !! (r, c) = cells (final_sheet e) !! (r, c).

Fixpoint contains_char (c : ascii) (s : string) : bool :=
  match s with
  | EmptyString => false
  | String d rest => Ascii.eqb d c || contains_char c rest
  end.

(** The entries of a list validation whose formula is a quoted list, as
    the spreadsheet reads it: the text between the two double quotes, cut
    at every comma. *)
Fixpoint split_at (sep : ascii) (s : string) : list string :=
  match s with
  | EmptyString => [EmptyString]
  | String c rest =>
      if Ascii.eqb c sep then EmptyString :: split_at sep rest
      else match split_at sep rest with
           | x :: xs => String c x :: xs
           | [] => [String c EmptyString]
           end
  end.

Fixpoint drop_closing_quote (s : string) : option string :=
  match s with
  | EmptyString => None
  | String c rest =>
      match rest with
      | EmptyString => if Ascii.eqb c dquote then Some EmptyString else None
      | _ => option_map (String c) (drop_closing_quote rest)
      end
  end.

Definition list_entries (formula : string) : option (list string) :=
  match formula with
  | EmptyString => None
  | String c rest =>
      if Ascii.eqb c dquote
      then option_map (split_at ",") (drop_closing_quote rest)
      else None
  end.

Definition comma_free (o : string) : bool := negb (contains_char "," o).

(** An option that holds neither a comma nor a double quote. *)
Definition plain_option (o : string) : bool :=
  comma_free o && negb (contains_char dquote o).

(** ** Sample inputs

    [repr] on the tolerances of the sample questions, and a few
    questions. *)

Definition sample_repr (t : float) : string :=
  if PrimFloat.eqb t 0.02%float then "0.02"
  else if PrimFloat.eqb t 0.05%float then "0.05"
  else if PrimFloat.eqb t 0%float then "0.0"
  else "nan".

Definition simple (kind text : string) (correct : option string)
    (opts : option (list string)) (tol : option float) : Question :=
  {| type := kind; question := text; answer := correct; options := opts;
     tolerance := tol; data_table := None; subquestions := None |}.

Definition q_truefalse : Question :=
  simple "truefalse" "Water boils at 100 C at sea level." (Some "True") None None.




Definition q_choice_without_options : Question :=
  simple "multiplechoice" "Pick one." (Some "B") None None.

Definition q_choice : Question :=
  simple "dropdown" "Pick one." (Some "B") (Some ["A"; "B"; "C"]) None.

Definition q_choice_quoted : Question :=
  simple "multiplechoice" "Pick the pipe." (Some "B")
    (Some ["5" +:+ dquote_str +:+ " pipe"; "B"]) None.

Definition q_choice_comma : Question :=
  simple "dropdown" "Pick the city." (Some "Rome")
    (Some ["Paris, France"; "Rome"]) None.

Definition gdp_table : DataTable :=
  {| headers := ["Year"; "GDP"];
     rows := [[PyInt 2020; PyFloat 21.4%float];
              [PyInt 2021; PyFloat 23.3%float];
              [PyInt 2022; PyFloat 25.5%float]] |}.

Definition sub_growth : SubQuestion :=
  {| part := "A"; sq_question := "What was the growth from 2020 to 2021?";
     sq_answer := "8.9"; sq_tolerance := Some 0.02%float |}.

Definition sub_label : SubQuestion :=
  {| part := "B"; sq_question := "Which year had the highest GDP?";
     sq_answer := "2022"; sq_tolerance := None |}.

Definition q_gdp : Question :=
  {| type := "data_table"; question := "Analyze the following GDP data:";
     answer := None; options := None; tolerance := None;
     data_table := Some gdp_table;
     subquestions := Some [sub_growth; sub_label] |}.

Definition build_sample (questions : list Question) : ExcelLayoutEngine :=
  fst (build_professional_workbook sample_repr questions
         "Professional_Exam.xlsx" "Professional Exam" ∅).

(** ** Further notions used by the properties below *)

(** The number of answer fields of a question: its sub-questions when it
    is a data-table or multi-part question, one otherwise. *)
Definition answer_fields (q : Question) : nat :=
  if is_complex q then length (subquestions_list q) else 1.

(** A validation of the student sheet is a list validation that accepts
    blanks and is attached to exactly one cell, the answer cell of a
    registered record whose type is a choice type. *)
Definition validation_sound (recs : list AnswerRecord) (dv : DataValidation)
    : Prop :=
  dv_type dv = "list" /\ allow_blank dv = true
  /\ exists a t, a ∈ recs /\ sqref dv = [cell_address a]
       /\ ar_type a = Some t /\ in_list t choice_types = true.

(** ** The response clean-up of [ai_generate_question]

    The part of the handler that cuts the reply down to the text between
    the first opening and the last closing bracket.  [None] stands for the
    index [-1] of the source. *)

Definition is_open (c : ascii) : bool :=
  Ascii.eqb c "{"%char || Ascii.eqb c "["%char.

Definition is_close (c : ascii) : bool :=
  Ascii.eqb c "}"%char || Ascii.eqb c "]"%char.

(** [for i, char in enumerate(raw): if char in [...]: start_idx = i; break],
    counting from [i]. *)
Fixpoint find_first (p : ascii -> bool) (i : nat) (raw : string) : option nat :=
  match raw with
  | EmptyString => None
  | String c rest => if p c then Some i else find_first p (S i) rest
  end.

(** [for i in range(len(raw) - 1, -1, -1): if raw[i] in [...]:
    end_idx = i + 1; break], counting from [i]. *)
Fixpoint find_last_end (p : ascii -> bool) (i : nat) (raw : string) : option nat :=
  match raw with
  | EmptyString => None
  | String c rest =>
      match find_last_end p (S i) rest with
      | Some e => Some e
      | None => if p c then Some (S i) else None
      end
  end.

(** [raw[start:stop]] for indices within the text. *)
Definition slice (start stop : nat) (raw : string) : string :=
  String.substring start (stop - start) raw.

Definition cut_to_brackets (raw : string) : string :=
  match find_first is_open 0 raw, find_last_end is_close 0 raw with
  | Some start_idx, Some end_idx => slice start_idx end_idx raw
  | _, _ => raw
  end.

Fixpoint last_char (s : string) : option ascii :=
  match s with
  | EmptyString => None
  | String c EmptyString => Some c
  | String _ rest => last_char rest
  end.

Definition first_char (s : string) : option ascii :=
  match s with
  | EmptyString => None
  | String c _ => Some c
  end.

(** [prompt.encode('ascii', errors='ignore').decode('ascii')] on the UTF-8
    text of the prompt: the bytes of the characters outside ASCII, all of
    them 128 or more, are dropped. *)
Fixpoint ascii_only (s : string) : string :=
  match s with
  | EmptyString => EmptyString
  | String c rest =>
      if Nat.ltb (nat_of_ascii c) 128 then String c (ascii_only rest)
      else ascii_only rest
  end.

(** The start of the handler: an empty prompt is refused with status 400,
    any other prompt is cleaned and sent. *)
Definition prepare_prompt (prompt : string) : nat * string + string :=
  match prompt with
  | EmptyString => inl (400, "Prompt is required")
  | _ => inr (ascii_only prompt)
  end.

Definition title_style (exam_title : string) (c : Cell) : Cell :=
  set_fill white_fill (set_alignment center_align
    (set_font title_font (set_value (PyStr exam_title) c))).

(** The layout of [build_professional_workbook] when the loop over the
    questions starts: the two sheets set up and the title written. *)
Definition titled_layout (exam_title : string) : ExcelLayoutEngine :=
  with_final
    (write_cell 1 2 PyNone (title_style exam_title)
       (final_sheet (setup_sheets init)))
    (setup_sheets init).

(** Further sample inputs. *)

Definition ragged_table : DataTable :=
  {| headers := ["Year"; "GDP"];
     rows := [[PyInt 2020];
              [PyInt 2021; PyFloat 23.3%float; PyStr "estimate"]] |}.

Definition q_short_answer : Question :=
  simple "short_answer" "How many items are left?" (Some "42") None
    (Some 0.05%float).


(** * Properties *)

(** ** Writing cells *)

Lemma write_cell_same row col v style ws :
  cells (write_cell row col v style ws) !! (row, col)
  = Some (style (store_value v (get_cell ws row col))).
Proof. unfold write_cell; simpl. apply lookup_insert_eq. Qed.

Lemma write_cell_other row col v style ws r c :
  (r, c) ≠ (row, col) ->
  cells (write_cell row col v style ws) !! (r, c) = cells ws !! (r, c).
Proof.
  intros Hne. unfold write_cell; simpl.
  apply lookup_insert_ne. congruence.
Qed.

Lemma write_cell_validations row col v style ws :
  data_validations (write_cell row col v style ws) = data_validations ws.
Proof. reflexivity. Qed.

Lemma get_cell_write_same row col v style ws :
  get_cell (write_cell row col v style ws) row col
  = style (store_value v (get_cell ws row col)).
Proof. unfold get_cell at 1. now rewrite write_cell_same. Qed.

Lemma get_cell_write_other row col v style ws r c :
  (r, c) ≠ (row, col) ->
  get_cell (write_cell row col v style ws) r c = get_cell ws r c.
Proof. intros Hne. unfold get_cell. now rewrite write_cell_other. Qed.

Section RowLoop.
Context {A : Type} (row : nat) (val : A -> pyvalue) (style : Cell -> Cell).

Lemma write_row_cons c0 x xs ws :
  write_row row val style c0 (x :: xs) ws
  = write_row row val style (S c0) xs (write_cell row c0 (val x) style ws).
Proof. reflexivity. Qed.

Lemma write_row_other xs : forall c0 ws r c,
  r ≠ row \/ c < c0 \/ c0 + length xs <= c ->
  cells (write_row row val style c0 xs ws) !! (r, c) = cells ws !! (r, c).
Proof.
  induction xs as [|x xs IH]; intros c0 ws r c H; [reflexivity|].
  rewrite write_row_cons, IH by (simpl in H; lia).
  apply write_cell_other. intros [= -> ->]. simpl in H. lia.
Qed.

Lemma write_row_same xs : forall c0 ws j x,
  xs !! j = Some x ->
  cells (write_row row val style c0 xs ws) !! (row, c0 + j)
  = Some (style (store_value (val x) (get_cell ws row (c0 + j)))).
Proof.
  induction xs as [|y xs IH]; intros c0 ws j x Hj; [discriminate|].
  rewrite write_row_cons.
  destruct j as [|j]; simpl in Hj.
  - injection Hj as ->.
    rewrite write_row_other by lia.
    rewrite Nat.add_0_r. apply write_cell_same.
  - replace (c0 + S j) with (S c0 + j) by lia.
    rewrite (IH (S c0) _ j x Hj).
    rewrite get_cell_write_other; [reflexivity|].
    intros [= H]. lia.
Qed.

Lemma write_row_rest xs : forall c0 ws,
  title (write_row row val style c0 xs ws) = title ws
  /\ row_height (write_row row val style c0 xs ws) = row_height ws
  /\ column_width (write_row row val style c0 xs ws) = column_width ws
  /\ data_validations (write_row row val style c0 xs ws) = data_validations ws
  /\ sheet_state (write_row row val style c0 xs ws) = sheet_state ws
  /\ protection_sheet (write_row row val style c0 xs ws) = protection_sheet ws.
Proof.
  induction xs as [|x xs IH]; intros c0 ws; [now repeat split|].
  rewrite write_row_cons.
  destruct (IH (S c0) (write_cell row c0 (val x) style ws))
    as (H1 & H2 & H3 & H4 & H5 & H6).
  now rewrite H1, H2, H3, H4, H5, H6.
Qed.
End RowLoop.

(** ** The four rendering operations, one by one *)

Lemma for_each_cons {A S : Type} (body : A -> S -> S) x xs s :
  for_each body (x :: xs) s = for_each body xs (body x s).
Proof. reflexivity. Qed.

Lemma for_each_app {A S : Type} (body : A -> S -> S) xs ys s :
  for_each body (xs ++ ys) s = for_each body ys (for_each body xs s).
Proof. unfold for_each. apply fold_left_app. Qed.

Lemma add_question_header_state n text e :
  let e' := snd (add_question_header n text e) in
  current_row e' = current_row e + 2
  /\ answer_cells e' = answer_cells e
  /\ solution_sheet e' = solution_sheet e
  /\ data_validations (final_sheet e') = data_validations (final_sheet e)
  /\ cells (final_sheet e') !! (current_row e + 1, 2)
     = Some (set_fill white_fill (set_alignment left_align (set_font bold_font
         (set_value (PyStr (str_nat n +:+ ". " +:+ text))
            (get_cell (final_sheet e) (current_row e + 1) 2)))))
  /\ forall r c, (r, c) ≠ (current_row e + 1, 2) ->
       cells (final_sheet e') !! (r, c) = cells (final_sheet e) !! (r, c).
Proof.
  unfold add_question_header; simpl.
  repeat split; try lia.
  - apply lookup_insert_eq.
  - intros r c Hne. apply lookup_insert_ne. congruence.
Qed.

Lemma add_data_row_state row_data e :
  let e' := add_data_row row_data e in
  current_row e' = current_row e + 1
  /\ answer_cells e' = answer_cells e
  /\ solution_sheet e' = solution_sheet e
  /\ final_sheet e'
     = write_row (current_row e) (fun v => v) data_style 3 row_data (final_sheet e).
Proof. now repeat split. Qed.

(** The loop over the data rows: row [i] of the table lands on sheet row
    [current_row + i]. *)
Lemma data_rows_state rs : forall e,
  let e' := for_each add_data_row rs e in
  current_row e' = current_row e + length rs
  /\ answer_cells e' = answer_cells e
  /\ solution_sheet e' = solution_sheet e
  /\ data_validations (final_sheet e') = data_validations (final_sheet e)
  /\ (forall i j row_data v,
        rs !! i = Some row_data -> row_data !! j = Some v ->
        cells (final_sheet e') !! (current_row e + i, 3 + j)
        = Some (data_style (store_value v
                  (get_cell (final_sheet e) (current_row e + i) (3 + j)))))
  /\ (forall r c,
        (forall i row_data, rs !! i = Some row_data ->
           r ≠ current_row e + i \/ c < 3 \/ 3 + length row_data <= c) ->
        cells (final_sheet e') !! (r, c) = cells (final_sheet e) !! (r, c)).
Proof.
  induction rs as [|rd rs IH]; intros e; cbv zeta.
  - simpl. repeat split; try lia; try reflexivity. intros i j ? ? H; discriminate.
  - rewrite for_each_cons. cbv zeta in IH.
    destruct (add_data_row_state rd e) as (Hr & Ha & Hs & Hf).
    destruct (IH (add_data_row rd e)) as (Hr' & Ha' & Hs' & Hv' & Hw & Hfr).
    rewrite Hr in Hr', Hw, Hfr. rewrite Hf in Hv', Hw, Hfr.
    repeat split.
    + simpl length. lia.
    + congruence.
    + congruence.
    + rewrite Hv'. apply write_row_rest.
    + intros i j row_data v Hi Hj.
      destruct i as [|i]; simpl in Hi.
      * injection Hi as ->.
        rewrite Hfr.
        -- rewrite Nat.add_0_r. apply (write_row_same _ (fun v => v)). exact Hj.
        -- intros i rd' _. left. lia.
      * replace (current_row e + S i) with (current_row e + 1 + i) by lia.
        rewrite (Hw i j row_data v Hi Hj).
        unfold get_cell. rewrite write_row_other by lia. reflexivity.
    + intros r c H.
      rewrite Hfr.
      * apply write_row_other.
        specialize (H 0 rd eq_refl). rewrite Nat.add_0_r in H. exact H.
      * intros i rd' Hi. specialize (H (S i) rd' Hi). lia.
Qed.

Lemma add_data_table_state dt e :
  let e' := add_data_table (Some dt) e in
  let ws := final_sheet e in
  let top := current_row e in
  current_row e' = top + length (rows dt) + 3
  /\ answer_cells e' = answer_cells e
  /\ solution_sheet e' = solution_sheet e
  /\ data_validations (final_sheet e') = data_validations ws
  /\ (forall j h, headers dt !! j = Some h ->
        cells (final_sheet e') !! (top + 1, 3 + j)
        = Some (header_style (set_value (PyStr h) (get_cell ws (top + 1) (3 + j)))))
  /\ (forall i j row_data v,
        rows dt !! i = Some row_data -> row_data !! j = Some v ->
        cells (final_sheet e') !! (top + 2 + i, 3 + j)
        = Some (data_style (store_value v (get_cell ws (top + 2 + i) (3 + j)))))
  /\ (forall r c,
        r ≠ top + 1 \/ c < 3 \/ 3 + length (headers dt) <= c ->
        (forall i row_data, rows dt !! i = Some row_data ->
           r ≠ top + 2 + i \/ c < 3 \/ 3 + length row_data <= c) ->
        cells (final_sheet e') !! (r, c) = cells ws !! (r, c)).
Proof.
  cbv zeta. unfold add_data_table.
  set (hd := write_row (current_row e + 1) PyStr header_style 3 (headers dt)
               (final_sheet e)).
  set (e1 := with_row (current_row e + 1 + 1) (with_final hd (add_spacing 1 e))).
  change (for_each add_data_row (rows dt) _)
    with (for_each add_data_row (rows dt) e1).
  destruct (data_rows_state (rows dt) e1) as (Hr & Ha & Hs & Hv & Hw & Hfr).
  cbv zeta in Hr, Ha, Hs, Hv, Hw, Hfr.
  change (current_row e1) with (current_row e + 1 + 1) in Hr, Hw, Hfr.
  change (final_sheet e1) with hd in Hv, Hw, Hfr.
  unfold add_spacing.
  cbn [current_row answer_cells solution_sheet final_sheet with_row].
  repeat split.
  - lia.
  - exact Ha.
  - exact Hs.
  - rewrite Hv. apply write_row_rest.
  - intros j h Hj. rewrite Hfr.
    + exact (write_row_same (current_row e + 1) PyStr header_style
               (headers dt) 3 (final_sheet e) j h Hj).
    + intros i rd _. left. lia.
  - intros i j rd v Hi Hj.
    replace (current_row e + 2 + i) with (current_row e + 1 + 1 + i) by lia.
    rewrite (Hw i j rd v Hi Hj). unfold get_cell, hd.
    rewrite write_row_other by lia. reflexivity.
  - intros r c Hh Hd. rewrite Hfr.
    + unfold hd. apply write_row_other. exact Hh.
    + intros i rd Hi. specialize (Hd i rd Hi). lia.
Qed.

Lemma add_subquestion_state sub_q n e :
  let e' := snd (add_subquestion sub_q n e) in
  let ws := final_sheet e in
  let top := current_row e in
  fst (add_subquestion sub_q n e) = coordinate 4 (top + 1)
  /\ current_row e' = top + 3
  /\ answer_cells e' = (answer_cells e ++ [sub_record n top sub_q])%list
  /\ solution_sheet e' = solution_sheet e
  /\ data_validations (final_sheet e') = data_validations ws
  /\ cells (final_sheet e') !! (top + 1, 4)
     = Some (answer_style (set_value (PyStr "") (get_cell ws (top + 1) 4)))
  /\ (forall r c, (r, c) ≠ (top, 2) -> (r, c) ≠ (top + 1, 4) ->
        cells (final_sheet e') !! (r, c) = cells ws !! (r, c)).
Proof.
  cbv zeta. unfold add_subquestion; simpl.
  repeat split.
  - lia.
  - rewrite lookup_insert_eq. unfold get_cell; simpl.
    rewrite lookup_insert_ne by (intros [= H]; lia). reflexivity.
  - intros r c H1 H2.
    rewrite lookup_insert_ne by congruence.
    apply lookup_insert_ne. congruence.
Qed.

Lemma add_simple_question_state q n e :
  let e' := snd (add_simple_question q n e) in
  let ws := final_sheet e in
  let top := current_row e in
  fst (add_simple_question q n e) = coordinate 3 (top + 2)
  /\ current_row e' = top + 4
  /\ answer_cells e' = (answer_cells e ++ [simple_record n top q])%list
  /\ solution_sheet e' = solution_sheet e
  /\ data_validations (final_sheet e')
     = (data_validations ws ++ simple_validations q (coordinate 3 (top + 2)))%list
  /\ cells (final_sheet e') !! (top + 2, 3)
     = Some (answer_style (set_value (PyStr "") (get_cell ws (top + 2) 3)))
  /\ (forall r c, (r, c) ≠ (top + 1, 2) -> (r, c) ≠ (top + 2, 3) ->
        cells (final_sheet e') !! (r, c) = cells ws !! (r, c)).
Proof.
  cbv zeta. unfold add_simple_question, simple_validations, simple_record; simpl.
  replace (current_row e + 1 + 1) with (current_row e + 2) by lia.
  repeat split.
  - lia.
  - destruct (_ && _); [reflexivity|].
    destruct (String.eqb _ _); [reflexivity|]. simpl. now rewrite app_nil_r.
  - assert (Hc : forall w : Worksheet,
      cells (if in_list (type q) ["dropdown"; "multiplechoice"]
                && options_truthy (options q)
             then add_data_validation
                    (list_validation (options_formula (default [] (options q)))
                       (coordinate 3 (current_row e + 2))) w
             else if String.eqb (type q) "truefalse"
             then add_data_validation
                    (list_validation (dquote_str +:+ "True,False" +:+ dquote_str)
                       (coordinate 3 (current_row e + 2))) w
             else w) = cells w).
    { intros w. destruct (_ && _); [reflexivity|].
      now destruct (String.eqb _ _). }
    rewrite Hc. simpl. rewrite lookup_insert_eq. unfold get_cell; simpl.
    rewrite lookup_insert_ne by (intros [= H]; lia). reflexivity.
  - intros r c H1 H2.
    destruct (_ && _); [|destruct (String.eqb _ _)]; simpl;
      (rewrite lookup_insert_ne by congruence;
       apply lookup_insert_ne; congruence).
Qed.

(** ** Coordinates read back *)

Lemma str_nat_digit n :
  exists c rest, str_nat n = String c rest /\ is_upper_letter c = false.
Proof.
  unfold str_nat.
  destruct (Nat.to_uint n) as [|d|d|d|d|d|d|d|d|d|d] eqn:E;
    try (simpl; eexists _, _; split; [reflexivity|reflexivity]).
  exfalso.
  pose proof (Unsigned.of_to n) as H. rewrite E in H. simpl in H. subst n.
  discriminate E.
Qed.

Lemma str_nat_value n :
  NilEmpty.uint_of_string (str_nat n) = Some (Nat.to_uint n).
Proof. apply NilEmpty.usu. Qed.

Lemma split_letters_str_nat n :
  split_letters (str_nat n) = (EmptyString, str_nat n).
Proof.
  destruct (str_nat_digit n) as (c & rest & E & Hc).
  rewrite E. simpl. now rewrite Hc.
Qed.

Lemma address_position_letter c row :
  is_upper_letter c = true ->
  address_position (String c (str_nat row)) = Some (row, nat_of_ascii c - 64).
Proof.
  intros Hc. unfold address_position. cbn [split_letters]. rewrite Hc.
  rewrite split_letters_str_nat.
  destruct (str_nat_digit row) as (d & rest & E & _).
  pose proof (str_nat_value row) as Hv. rewrite E in *.
  rewrite Hv, Unsigned.of_to. reflexivity.
Qed.

Lemma address_position_coordinate col row :
  col = 3 \/ col = 4 ->
  address_position (coordinate col row) = Some (row, col).
Proof.
  intros [-> | ->].
  - apply (address_position_letter "C"%char). reflexivity.
  - apply (address_position_letter "D"%char). reflexivity.
Qed.

(** ** The registry invariant *)

Lemma answer_row_frame ws ws' a r :
  answer_row ws a = Some r ->
  (forall c, cells ws' !! (r, c) = cells ws !! (r, c)) ->
  answer_row ws' a = Some r.
Proof.
  unfold answer_row, is_answer_cell. intros H Hf.
  destruct (address_position (cell_address a)) as [[row col]|]; [|discriminate].
  destruct (cells ws !! (row, col)) as [c|] eqn:E; [|discriminate].
  destruct (answer_styled c) eqn:Ec; [|discriminate].
  injection H as ->. now rewrite Hf, E, Ec.
Qed.

Lemma registry_sound_extend e e' new rows_new :
  registry_sound e ->
  current_row e <= current_row e' ->
  (forall r c, r < current_row e ->
     cells (final_sheet e') !! (r, c) = cells (final_sheet e) !! (r, c)) ->
  answer_cells e' = (answer_cells e ++ new)%list ->
  Forall2 (fun a r => answer_row (final_sheet e') a = Some r) new rows_new ->
  StronglySorted lt rows_new ->
  Forall (fun r => current_row e <= r < current_row e') rows_new ->
  registry_sound e'.
Proof.
  intros (rows & Hrows & Hsorted & Hbelow) Hle Hframe Hreg Hnew Hs Hin.
  exists (rows ++ rows_new)%list. rewrite Hreg. repeat split.
  - apply Forall2_app; [|exact Hnew].
    clear Hsorted Hreg. induction Hrows as [|a r l k Har _ IH]; [constructor|].
    inversion Hbelow as [|? ? Hr Hk]; subst.
    constructor; [|exact (IH Hk)].
    apply answer_row_frame with (ws := final_sheet e); [exact Har|].
    intros c. now apply Hframe.
  - apply StronglySorted_app_2; [|exact Hsorted|exact Hs].
    intros x1 x2 H1 H2.
    rewrite Forall_forall in Hbelow, Hin.
    specialize (Hbelow x1 H1). specialize (Hin x2 H2). lia.
  - apply Forall_app. split.
    + eapply Forall_impl; [exact Hbelow|]. intros; simpl in *; lia.
    + eapply Forall_impl; [exact Hin|]. intros; simpl in *; lia.
Qed.

Lemma answer_styled_written c :
  answer_styled (answer_style (set_value (PyStr "") c)) = true.
Proof. reflexivity. Qed.

Lemma answer_row_written ws col row c :
  col = 3 \/ col = 4 ->
  cells ws !! (row, col) = Some (answer_style (set_value (PyStr "") c)) ->
  forall a, cell_address a = coordinate col row -> answer_row ws a = Some row.
Proof.
  intros Hcol Hcell a Ha. unfold answer_row, is_answer_cell.
  rewrite Ha, (address_position_coordinate col row Hcol), Hcell.
  now rewrite answer_styled_written.
Qed.

Lemma add_question_header_sound n text e :
  registry_sound e -> registry_sound (snd (add_question_header n text e)).
Proof.
  intros H.
  destruct (add_question_header_state n text e) as (Hr & Ha & _ & _ & _ & Hf).
  cbv zeta in Hr, Ha, Hf.
  apply (registry_sound_extend e _ [] []); try assumption; try constructor.
  - lia.
  - intros r c Hlt. apply Hf. intros [= -> _]. lia.
  - now rewrite app_nil_r.
Qed.

Lemma add_data_table_sound dt e :
  registry_sound e -> registry_sound (add_data_table dt e).
Proof.
  intros H. destruct dt as [dt|]; [|exact H].
  destruct (add_data_table_state dt e) as (Hr & Ha & _ & _ & _ & _ & Hf).
  cbv zeta in Hr, Ha, Hf.
  apply (registry_sound_extend e _ [] []); try assumption; try constructor.
  - lia.
  - intros r c Hlt. apply Hf; [left; lia|]. intros i rd _. left. lia.
  - now rewrite app_nil_r.
Qed.

Lemma add_subquestion_sound sub_q n e :
  registry_sound e -> registry_sound (snd (add_subquestion sub_q n e)).
Proof.
  intros H.
  destruct (add_subquestion_state sub_q n e) as (_ & Hr & Ha & _ & _ & Hc & Hf).
  cbv zeta in Hr, Ha, Hc, Hf.
  apply (registry_sound_extend e _ [sub_record n (current_row e) sub_q]
           [current_row e + 1]); try assumption.
  - lia.
  - intros r c Hlt. apply Hf; intros [= -> _]; lia.
  - repeat constructor.
    eapply (answer_row_written _ 4); [now right|exact Hc|reflexivity].
  - repeat constructor.
  - repeat constructor; lia.
Qed.

Lemma add_simple_question_sound q n e :
  registry_sound e -> registry_sound (snd (add_simple_question q n e)).
Proof.
  intros H.
  destruct (add_simple_question_state q n e) as (_ & Hr & Ha & _ & _ & Hc & Hf).
  cbv zeta in Hr, Ha, Hc, Hf.
  apply (registry_sound_extend e _ [simple_record n (current_row e) q]
           [current_row e + 2]); try assumption.
  - lia.
  - intros r c Hlt. apply Hf; intros [= -> _]; lia.
  - repeat constructor.
    eapply (answer_row_written _ 3); [now left|exact Hc|reflexivity].
  - repeat constructor.
  - repeat constructor; lia.
Qed.

(** The loop over the sub-questions of one question. *)
Lemma subquestions_state n subs : forall e,
  let e' := for_each (fun sub_q l => snd (add_subquestion sub_q n l)) subs e in
  current_row e' = current_row e + 3 * length subs
  /\ answer_cells e' = (answer_cells e ++ sub_records n (current_row e) subs)%list
  /\ solution_sheet e' = solution_sheet e
  /\ data_validations (final_sheet e') = data_validations (final_sheet e)
  /\ (forall r c, r < current_row e ->
        cells (final_sheet e') !! (r, c) = cells (final_sheet e) !! (r, c))
  /\ (registry_sound e -> registry_sound e').
Proof.
  induction subs as [|sub_q subs IH]; intros e; cbv zeta.
  - simpl. rewrite app_nil_r. repeat split; try lia; auto.
  - rewrite for_each_cons.
    destruct (add_subquestion_state sub_q n e) as (_ & Hr & Ha & Hs & Hv & _ & Hf).
    cbv zeta in Hr, Ha, Hs, Hv, Hf.
    destruct (IH (snd (add_subquestion sub_q n e)))
      as (Hr' & Ha' & Hs' & Hv' & Hf' & Hsound).
    cbv zeta in Hr', Ha', Hs', Hv', Hf', Hsound.
    rewrite Hr in Hr', Ha', Hf'. rewrite Ha in Ha'.
    repeat split.
    + simpl length. lia.
    + rewrite Ha'. rewrite <- app_assoc. reflexivity.
    + congruence.
    + congruence.
    + intros r c Hlt. rewrite Hf' by lia. apply Hf; intros [= -> _]; lia.
    + intros H. apply Hsound. now apply add_subquestion_sound.
Qed.

(** One question: the cursor moves by its height, its records are
    appended, and the cells above the cursor stay as they were. *)
Lemma render_question_state q n e :
  let e' := render_question q n e in
  current_row e' = current_row e + question_height q
  /\ answer_cells e' = (answer_cells e ++ question_records n (current_row e) q)%list
  /\ solution_sheet e' = solution_sheet e
  /\ (forall r c, r < current_row e ->
        cells (final_sheet e') !! (r, c) = cells (final_sheet e) !! (r, c))
  /\ (registry_sound e -> registry_sound e').
Proof.
  cbv zeta. unfold render_question, question_height, question_records, is_complex.
  destruct (String.eqb (type q) "data_table" || String.eqb (type q) "multipart").
  - destruct (add_question_header_state n (question q) e)
      as (Hr1 & Ha1 & Hs1 & _ & _ & Hf1).
    cbv zeta in Hr1, Ha1, Hs1, Hf1.
    pose proof (add_question_header_sound n (question q) e) as Hsd1.
    set (e1 := snd (add_question_header n (question q) e)) in *.
    assert (H2 : let e2 := match data_table q with
                           | Some dt => add_data_table (Some dt) e1
                           | None => e1
                           end in
                 current_row e2 = current_row e + 2 + table_height (data_table q)
                 /\ answer_cells e2 = answer_cells e
                 /\ solution_sheet e2 = solution_sheet e
                 /\ (forall r c, r < current_row e ->
                       cells (final_sheet e2) !! (r, c)
                       = cells (final_sheet e) !! (r, c))
                 /\ (registry_sound e -> registry_sound e2)).
    { cbv zeta. destruct (data_table q) as [dt|]; cbn [table_height].
      - destruct (add_data_table_state dt e1) as (Hr & Ha & Hs & _ & _ & _ & Hf).
        cbv zeta in Hr, Ha, Hs, Hf.
        repeat split; try congruence.
        + lia.
        + intros r c Hlt. rewrite Hf.
          * apply Hf1. intros [= -> _]. lia.
          * left. lia.
          * intros i rd _. left. lia.
        + intros H. apply (add_data_table_sound (Some dt)). auto.
      - repeat split; try congruence; try lia.
        + intros r c Hlt. apply Hf1. intros [= -> _]. lia.
        + auto. }
    cbv zeta in H2.
    set (e2 := match data_table q with
               | Some dt => add_data_table (Some dt) e1
               | None => e1
               end) in *.
    destruct H2 as (Hr2 & Ha2 & Hs2 & Hf2 & Hsd2).
    unfold subquestions_list.
    destruct (subquestions q) as [[|sub_q subs]|]; simpl default.
    + simpl. rewrite app_nil_r. repeat split; auto; lia.
    + destruct (subquestions_state n (sub_q :: subs) e2)
        as (Hr3 & Ha3 & Hs3 & _ & Hf3 & Hsd3).
      cbv zeta in Hr3, Ha3, Hs3, Hf3, Hsd3.
      repeat split.
      * rewrite Hr3. lia.
      * rewrite Ha3, Ha2, Hr2. reflexivity.
      * congruence.
      * intros r c Hlt. rewrite Hf3 by lia. now apply Hf2.
      * auto.
    + simpl. rewrite app_nil_r. repeat split; auto; lia.
  - destruct (add_simple_question_state q n e) as (_ & Hr & Ha & Hs & _ & _ & Hf).
    cbv zeta in Hr, Ha, Hs, Hf.
    repeat split; auto.
    + intros r c Hlt. apply Hf; intros [= -> _]; lia.
    + apply add_simple_question_sound.
Qed.

(** The walk over the whole question list. *)
Lemma render_questions_state qs : forall n e,
  let r := render_questions qs (n, e) in
  fst r = n + length qs
  /\ current_row (snd r) >= current_row e
  /\ answer_cells (snd r) = (answer_cells e ++ registry n (current_row e) qs)%list
  /\ solution_sheet (snd r) = solution_sheet e
  /\ (registry_sound e -> registry_sound (snd r)).
Proof.
  induction qs as [|q qs IH]; intros n e; cbv zeta.
  - simpl. rewrite app_nil_r. repeat split; auto; lia.
  - unfold render_questions. rewrite for_each_cons.
    fold (render_questions qs (n + 1, render_question q n e)).
    destruct (render_question_state q n e) as (Hr & Ha & Hs & _ & Hsd).
    cbv zeta in Hr, Ha, Hs, Hsd.
    destruct (IH (n + 1) (render_question q n e)) as (Hn' & Hr' & Ha' & Hs' & Hsd').
    cbv zeta in Hn', Hr', Ha', Hs', Hsd'.
    repeat split.
    + rewrite Hn'. simpl length. lia.
    + lia.
    + rewrite Ha', Ha, Hr. rewrite <- app_assoc.
      replace (n + 1) with (S n) by lia. reflexivity.
    + congruence.
    + auto.
Qed.

Lemma setup_grading_keeps float_repr e :
  final_sheet (setup_grading float_repr e) = final_sheet e
  /\ current_row (setup_grading float_repr e) = current_row e
  /\ answer_cells (setup_grading float_repr e) = answer_cells e.
Proof.
  unfold setup_grading.
  destruct (for_each (grading_step float_repr) (answer_cells e) (solution_sheet e, 2)).
  now repeat split.
Qed.

Lemma registry_sound_same e e' :
  cells (final_sheet e') = cells (final_sheet e) ->
  current_row e' = current_row e ->
  answer_cells e' = answer_cells e ->
  registry_sound e -> registry_sound e'.
Proof.
  intros Hc Hr Ha H.
  apply (registry_sound_extend e e' [] []); try assumption; try constructor.
  - lia.
  - intros r c _. now rewrite Hc.
  - now rewrite app_nil_r.
Qed.

(** The layout a build ends with. *)
Lemma build_layout float_repr qs filename exam_title disk :
  let layout :=
    fst (build_professional_workbook float_repr qs filename exam_title disk) in
  answer_cells layout = registry 1 2 qs
  /\ registry_sound layout
  /\ protection_sheet (final_sheet layout) = false
  /\ sheet_state (solution_sheet layout) = hidden.
Proof.
  cbv zeta. unfold build_professional_workbook.
  set (e0 := with_final _ (setup_sheets init)).
  assert (H0 : registry_sound e0) by (exists []; repeat constructor).
  destruct (render_questions_state qs 1 e0) as (_ & _ & Ha & _ & Hsd).
  cbv zeta in Ha, Hsd.
  destruct (render_questions qs (1, e0)) as [n1 e1]. simpl in Ha, Hsd.
  destruct (setup_grading_keeps float_repr e1) as (Hf & Hr & Hg).
  cbn [fst final_sheet solution_sheet answer_cells with_final with_solution
       set_protection set_sheet_state protection_sheet sheet_state].
  repeat split.
  - now rewrite Hg, Ha.
  - apply (registry_sound_same e1); cbn; try congruence. auto.
Qed.

(** ** The grading formulas as terms *)







(** ** The grading sheet *)

Ltac cell_writes :=
  repeat (rewrite get_cell_write_same
          || (rewrite get_cell_write_other by (intros [=]; lia))).

Lemma value_grading_style col c : value (grading_style col c) = value c.
Proof. unfold grading_style. now destruct (Nat.eqb col 9). Qed.

Lemma grading_step_state float_repr a ws r :
  let ws' := fst (grading_step float_repr a (ws, r)) in
  snd (grading_step float_repr a (ws, r)) = r + 1
  /\ cell_value ws' r 9 = PyStr (question_id a)
  /\ cell_value ws' r 10 = PyStr ("=Student!" +:+ cell_address a)
  /\ cell_value ws' r 11
     = value (store_value (option_pystr (correct_answer a)) (get_cell ws r 11))
  /\ cell_value ws' r 12 = PyStr (grading_formula float_repr a r)
  /\ (forall r' c, r' ≠ r -> cells ws' !! (r', c) = cells ws !! (r', c)).
Proof.
  cbv zeta. unfold grading_step, for_each. cbn [fold_left seq fst snd].
  unfold cell_value.
  repeat split.
  - cell_writes. now rewrite value_grading_style.
  - cell_writes. now rewrite value_grading_style.
  - cell_writes. now rewrite value_grading_style.
  - cell_writes. now rewrite value_grading_style.
  - intros r' c Hne.
    repeat (rewrite write_cell_other by (intros [=]; lia)). reflexivity.
Qed.

Lemma cell_value_same ws ws' r c :
  cells ws' !! (r, c) = cells ws !! (r, c) ->
  cell_value ws' r c = cell_value ws r c.
Proof. unfold cell_value, get_cell. now intros ->. Qed.

Lemma get_cell_same ws ws' r c :
  cells ws' !! (r, c) = cells ws !! (r, c) ->
  get_cell ws' r c = get_cell ws r c.
Proof. unfold get_cell. now intros ->. Qed.

(** The loop of [setup_grading]: record [i] fills row [r0 + i]. *)
Lemma grading_loop_state float_repr recs : forall ws r0,
  let res := for_each (grading_step float_repr) recs (ws, r0) in
  snd res = r0 + length recs
  /\ (forall i a, recs !! i = Some a ->
        cell_value (fst res) (r0 + i) 9 = PyStr (question_id a)
        /\ cell_value (fst res) (r0 + i) 10
           = PyStr ("=Student!" +:+ cell_address a)
        /\ cell_value (fst res) (r0 + i) 11
           = value (store_value (option_pystr (correct_answer a))
                      (get_cell ws (r0 + i) 11))
        /\ cell_value (fst res) (r0 + i) 12
           = PyStr (grading_formula float_repr a (r0 + i)))
  /\ (forall r c, r < r0 \/ r0 + length recs <= r ->
        cells (fst res) !! (r, c) = cells ws !! (r, c)).
Proof.
  induction recs as [|a recs IH]; intros ws r0; cbv zeta.
  - simpl. repeat split; try lia; intros; discriminate.
  - rewrite for_each_cons.
    destruct (grading_step_state float_repr a ws r0)
      as (Hn & H9 & H10 & H11 & H12 & Hfr).
    cbv zeta in H9, H10, H11, H12, Hfr.
    destruct (grading_step float_repr a (ws, r0)) as [ws1 r1].
    cbn [fst snd] in Hn, H9, H10, H11, H12, Hfr. subst r1.
    destruct (IH ws1 (r0 + 1)) as (Hn' & Hrows & Hfr').
    cbv zeta in Hn', Hrows, Hfr'.
    set (res := for_each (grading_step float_repr) recs (ws1, r0 + 1)) in *.
    repeat split.
    + rewrite Hn'. simpl length. lia.
    + destruct i as [|i]; simpl in H; [injection H as ->|].
      * rewrite Nat.add_0_r.
        rewrite (cell_value_same ws1) by (apply Hfr'; lia). exact H9.
      * replace (r0 + S i) with (r0 + 1 + i) by lia.
        now destruct (Hrows i a0 H) as (? & _).
    + destruct i as [|i]; simpl in H; [injection H as ->|].
      * rewrite Nat.add_0_r.
        rewrite (cell_value_same ws1) by (apply Hfr'; lia). exact H10.
      * replace (r0 + S i) with (r0 + 1 + i) by lia.
        now destruct (Hrows i a0 H) as (_ & ? & _).
    + destruct i as [|i]; simpl in H; [injection H as ->|].
      * rewrite Nat.add_0_r.
        rewrite (cell_value_same ws1) by (apply Hfr'; lia). exact H11.
      * replace (r0 + S i) with (r0 + 1 + i) by lia.
        destruct (Hrows i a0 H) as (_ & _ & H11' & _). rewrite H11'.
        rewrite (get_cell_same ws ws1) by (apply Hfr; lia). reflexivity.
    + destruct i as [|i]; simpl in H; [injection H as ->|].
      * rewrite Nat.add_0_r.
        rewrite (cell_value_same ws1) by (apply Hfr'; lia). exact H12.
      * replace (r0 + S i) with (r0 + 1 + i) by lia.
        now destruct (Hrows i a0 H) as (_ & _ & _ & ?).
    + intros r c Hr. rewrite Hfr' by (simpl length in Hr; lia).
      apply Hfr. simpl length in Hr. lia.
Qed.

Lemma setup_grading_rows float_repr e i a :
  answer_cells e !! i = Some a ->
  let ws' := solution_sheet (setup_grading float_repr e) in
  cell_value ws' (2 + i) 9 = PyStr (question_id a)
  /\ cell_value ws' (2 + i) 10 = PyStr ("=Student!" +:+ cell_address a)
  /\ cell_value ws' (2 + i) 11
     = value (store_value (option_pystr (correct_answer a))
                (get_cell (solution_sheet e) (2 + i) 11))
  /\ cell_value ws' (2 + i) 12 = PyStr (grading_formula float_repr a (2 + i)).
Proof.
  intros Hi. cbv zeta. unfold setup_grading.
  destruct (grading_loop_state float_repr (answer_cells e) (solution_sheet e) 2)
    as (Hn & Hrows & _).
  cbv zeta in Hn, Hrows.
  destruct (for_each (grading_step float_repr) (answer_cells e)
              (solution_sheet e, 2)) as [ws r].
  cbn [fst snd] in Hn, Hrows. subst r.
  pose proof (lookup_lt_Some _ _ _ Hi) as Hlt.
  specialize (Hrows i a Hi).
  destruct (answer_cells e) as [|a0 rest]; [discriminate|].
  cbn [solution_sheet with_solution]. unfold cell_value in *.
  simpl length in Hlt |- *.
  assert (Hne : forall c c' : nat, (2 + i, c) ≠ (2 + S (length rest) + 1, c'))
    by (intros c c' [= H]; lia).
  rewrite !get_cell_write_other by apply Hne.
  exact Hrows.
Qed.

Lemma solution_sheet_blank r c :
  2 <= r -> cells (solution_sheet (setup_sheets init)) !! (r, c) = None.
Proof.
  intros Hr. unfold setup_sheets. cbn [solution_sheet with_solution with_final].
  change (for_enumerate _ 9 ?xs ?ws)
    with (write_row 1 PyStr
            (fun c => set_alignment center_align (set_border thin_border
                        (set_fill header_fill (set_font bold_font c)))) 9 xs ws).
  rewrite write_row_other by lia. reflexivity.
Qed.

Lemma solution_with_final ws e :
  solution_sheet (with_final ws e) = solution_sheet e.
Proof. reflexivity. Qed.

(** In a built workbook, row [2 + i] of the solution sheet is the row of
    the record at position [i] of the registry. *)
Lemma build_grading_row float_repr qs filename exam_title disk i a :
  let layout :=
    fst (build_professional_workbook float_repr qs filename exam_title disk) in
  answer_cells layout !! i = Some a ->
  emitted_row float_repr (solution_sheet layout) (2 + i) a.
Proof.
  cbv zeta. unfold build_professional_workbook.
  set (e0 := with_final _ (setup_sheets init)).
  assert (H0 : solution_sheet e0 = solution_sheet (setup_sheets init))
    by apply solution_with_final.
  clearbody e0.
  destruct (render_questions_state qs 1 e0) as (_ & _ & _ & Hs & _).
  cbv zeta in Hs.
  destruct (render_questions qs (1, e0)) as [n1 e1]. cbn [snd] in Hs.
  destruct (setup_grading_keeps float_repr e1) as (_ & _ & Hg).
  cbn [fst final_sheet solution_sheet answer_cells with_final with_solution].
  rewrite Hg. intros Hi.
  destruct (setup_grading_rows float_repr e1 i a Hi) as (H9 & H10 & H11 & H12).
  cbv zeta in H9, H10, H11, H12.
  unfold emitted_row.
  change (cell_value (set_sheet_state hidden ?ws) ?r ?c)
    with (cell_value ws r c).
  repeat split; try assumption.
  rewrite H11, Hs, H0. unfold get_cell.
  rewrite solution_sheet_blank by lia.
  destruct (correct_answer a); reflexivity.
Qed.

(** ** What the three formulas compute *)












(** * The claims *)









(** C10.  The record [add_subquestion] appends has no type, which
    [setup_grading] reads as numerical: in a built workbook, the cell in
    column L of the row of a record without type holds the tolerance
    formula when the tolerance of the record is set and not zero, the
    default 0.01 formula otherwise, and never the text comparison,
    whatever the answer is. *)
Theorem subquestion_graded_numerically float_repr sub_q n e
    qs filename exam_title disk i a :
  let appended := sub_record n (current_row e) sub_q in
  let layout :=
    fst (build_professional_workbook float_repr qs filename exam_title disk) in
  let row := 2 + i in
  answer_cells layout !! i = Some a ->
  ar_type a = None ->
  (answer_cells (snd (add_subquestion sub_q n e))
   = (answer_cells e ++ [appended])%list
   /\ ar_type appended = None
   /\ ar_tolerance appended = sq_tolerance sub_q)
  /\ question_type a = "numerical"
  /\ cell_value (solution_sheet layout) row 12
     = PyStr (if tolerance_truthy (ar_tolerance a)
              then tolerance_formula_text float_repr (ar_tolerance a) row
              else default_formula_text row)
  /\ cell_value (solution_sheet layout) row 12 ≠ PyStr (text_formula_text row).
Proof.
  cbv zeta. intros Hi Hty.
  destruct (add_subquestion_state sub_q n e) as (_ & _ & Ha & _).
  cbv zeta in Ha.
  split; [split; [exact Ha|split; reflexivity]|].
  assert (Hq : question_type a = "numerical")
    by (unfold question_type; now rewrite Hty).
  split; [exact Hq|].
  destruct (build_grading_row float_repr qs filename exam_title disk i a Hi)
    as (_ & _ & _ & H12).
  rewrite H12. unfold grading_formula. rewrite Hq.
  change (String.eqb "numerical" "numerical") with true.
  change (in_list "numerical" choice_types) with false.
  rewrite andb_true_r.
  split; [reflexivity|].
  destruct (tolerance_truthy (ar_tolerance a));
    unfold tolerance_formula_text, default_formula_text, text_formula_text;
    cbn [String.append]; discriminate.
Qed.

(** C10 at a true/false question followed by the GDP question: the rows
    3 and 4 of the solution sheet are those of the two sub-questions; the
    first, with tolerance 0.02, gets the tolerance formula and the second,
    whose answer is a year and which has no tolerance, the default one. *)
Lemma subquestion_graded_numerically_witness :
  let layout := build_sample [q_truefalse; q_gdp] in
  cell_value (solution_sheet layout) 3 12
  = PyStr "=IF(ABS(VALUE(K3)-VALUE(J3))<=(0.02*ABS(VALUE(K3))),1,0)"
  /\ cell_value (solution_sheet layout) 4 12
     = PyStr "=IF(ABS(VALUE(K4)-VALUE(J4))<=0.01,1,0)".
Proof.
  cbv zeta. split.
  - unshelve epose proof
      (subquestion_graded_numerically sample_repr sub_growth 2 init
         [q_truefalse; q_gdp] "Professional_Exam.xlsx" "Professional Exam" ∅
         1 (sub_record 2 14 sub_growth) _ _) as H;
      [vm_compute; reflexivity ..|].
    exact (proj1 (proj2 (proj2 H))).
  - unshelve epose proof
      (subquestion_graded_numerically sample_repr sub_label 2 init
         [q_truefalse; q_gdp] "Professional_Exam.xlsx" "Professional Exam" ∅
         2 (sub_record 2 17 sub_label) _ _) as H;
      [vm_compute; reflexivity ..|].
    exact (proj1 (proj2 (proj2 H))).
Defined.

(** ** The registry of a built workbook *)

Lemma answer_styled_spec c :
  answer_styled c = true ->
  value c = PyStr "" /\ fill c = answer_fill
  /\ border c = thin_border /\ alignment c = center_align.
Proof.
  unfold answer_styled.
  destruct (value c) as [|[|]| | |]; try discriminate.
  destruct (border c); try discriminate.
  destruct (alignment c); try discriminate.
  destruct (fill c); try discriminate.
  now repeat split.
Qed.

Lemma answer_row_spec ws a row :
  answer_row ws a = Some row ->
  exists col c,
    address_position (cell_address a) = Some (row, col)
    /\ cells ws !! (row, col) = Some c
    /\ value c = PyStr "" /\ fill c = answer_fill
    /\ border c = thin_border /\ alignment c = center_align.
Proof.
  unfold answer_row, is_answer_cell.
  destruct (address_position (cell_address a)) as [[r col]|]; [|discriminate].
  destruct (cells ws !! (r, col)) as [c|] eqn:E; [|discriminate].
  destruct (answer_styled c) eqn:Ec; [|discriminate].
  intros [= ->]. exists col, c. split; [reflexivity|]. split; [exact E|].
  now apply answer_styled_spec.
Qed.

(** C4.  After a build, every record of the registry has an address that
    names a cell of the student sheet holding an empty text with the
    border, centring and fill of an answer input, on a sheet left
    unprotected; and the rows of these cells increase strictly along the
    registry. *)
Theorem registry_names_answer_cells float_repr qs filename exam_title disk :
  let layout :=
    fst (build_professional_workbook float_repr qs filename exam_title disk) in
  exists rows : list nat,
    Forall2 (fun a row => exists col c,
               address_position (cell_address a) = Some (row, col)
               /\ cells (final_sheet layout) !! (row, col) = Some c
               /\ value c = PyStr "" /\ fill c = answer_fill
               /\ border c = thin_border /\ alignment c = center_align)
      (answer_cells layout) rows
    /\ StronglySorted lt rows
    /\ protection_sheet (final_sheet layout) = false.
Proof.
  cbv zeta.
  destruct (build_layout float_repr qs filename exam_title disk)
    as (_ & (rows & Hrows & Hsorted & _) & Hprot & _).
  cbv zeta in Hrows, Hsorted, Hprot.
  exists rows. split; [|split; assumption].
  eapply Forall2_impl; [exact Hrows|].
  intros a row H. now apply answer_row_spec.
Qed.

Lemma sub_records_ids n subs : forall row,
  map question_id (sub_records n row subs)
  = map (fun sub_q => str_nat n +:+ part sub_q) subs.
Proof.
  induction subs as [|sub_q subs IH]; intros row; [reflexivity|].
  simpl. now rewrite IH.
Qed.

Lemma registry_ids qs : forall n row,
  map question_id (registry n row qs) = question_ids n qs.
Proof.
  induction qs as [|q qs IH]; intros n row; [reflexivity|].
  simpl. rewrite map_app, IH. f_equal.
  unfold question_records. destruct (is_complex q); [|reflexivity].
  apply sub_records_ids.
Qed.

(** C5.  In a built workbook, the identifiers of the registry are, question
    by question from number 1: for a data-table or multi-part question the
    number followed by the part label of each sub-question, for any other
    question the number alone. *)
Theorem registry_question_ids float_repr qs filename exam_title disk :
  map question_id
    (answer_cells
       (fst (build_professional_workbook float_repr qs filename exam_title disk)))
  = question_ids 1 qs.
Proof.
  destruct (build_layout float_repr qs filename exam_title disk) as (Ha & _).
  cbv zeta in Ha. rewrite Ha. apply registry_ids.
Qed.

(** C9.  Two builds from the same question list register the same records
    in the same order, whatever the file name, the title and the files
    already on disk; in particular the same identifiers, correct answers
    and tolerances. *)
Theorem build_registry_deterministic float_repr qs
    filename1 exam_title1 disk1 filename2 exam_title2 disk2 :
  answer_cells
    (fst (build_professional_workbook float_repr qs filename1 exam_title1 disk1))
  = answer_cells
      (fst (build_professional_workbook float_repr qs filename2 exam_title2 disk2)).
Proof.
  destruct (build_layout float_repr qs filename1 exam_title1 disk1) as (H1 & _).
  destruct (build_layout float_repr qs filename2 exam_title2 disk2) as (H2 & _).
  cbv zeta in H1, H2. now rewrite H1, H2.
Qed.

(** C6, as amended.  For a table with N headers and M data rows of N
    values each, [add_data_table] writes the header row and the M data
    rows below it, N cells in each from column C on.  A header cell holds
    its header in bold, with the header fill, the thin border and centred;
    a data cell holds its value, or what the cell held before when the
    value is [None], with the thin border, the table fill and centred, its
    font left as it was.  No other cell of the sheet is written and the
    answer registry is left as it was. *)
Theorem data_table_rows dt e :
  let N := length (headers dt) in
  let M := length (rows dt) in
  let top := current_row e in
  let before := final_sheet e in
  let after := final_sheet (add_data_table (Some dt) e) in
  Forall (fun row_data => length row_data = N) (rows dt) ->
  answer_cells (add_data_table (Some dt) e) = answer_cells e
  /\ (forall j, j < N -> exists h c,
        headers dt !! j = Some h
        /\ cells after !! (top + 1, 3 + j) = Some c
        /\ value c = PyStr h
        /\ font c = bold_font
        /\ fill c = header_fill
        /\ border c = thin_border
        /\ alignment c = center_align)
  /\ (forall i j, i < M -> j < N -> exists row_data v c,
        rows dt !! i = Some row_data /\ row_data !! j = Some v
        /\ cells after !! (top + 2 + i, 3 + j) = Some c
        /\ value c = match v with
                     | PyNone => value (get_cell before (top + 2 + i) (3 + j))
                     | _ => v
                     end
        /\ font c = font (get_cell before (top + 2 + i) (3 + j))
        /\ fill c = table_fill
        /\ border c = thin_border
        /\ alignment c = center_align)
  /\ (forall r c, ~ (top + 1 <= r <= top + 1 + M /\ 3 <= c < 3 + N) ->
        cells after !! (r, c) = cells before !! (r, c)).
Proof.
  cbv zeta. intros Hrect.
  destruct (add_data_table_state dt e) as (_ & Ha & _ & _ & Hh & Hd & Hf).
  cbv zeta in Ha, Hh, Hd, Hf.
  split; [exact Ha|]. split; [|split].
  - intros j Hj.
    destruct (lookup_lt_is_Some_2 (headers dt) j Hj) as [h Hjh].
    exists h. eexists. split; [exact Hjh|].
    split; [exact (Hh j h Hjh)|].
    split; [|split; [|split; [|split]]]; reflexivity.
  - intros i j Hi Hj.
    destruct (lookup_lt_is_Some_2 (rows dt) i Hi) as [rd Hrd].
    assert (Hlen : length rd = length (headers dt)).
    { rewrite Forall_forall in Hrect. apply Hrect.
      eapply list_elem_of_lookup_2. exact Hrd. }
    destruct (lookup_lt_is_Some_2 rd j) as [v Hv]; [lia|].
    exists rd, v. eexists. split; [exact Hrd|]. split; [exact Hv|].
    split; [exact (Hd i j rd v Hrd Hv)|].
    split; [|split; [|split; [|split]]]; destruct v; reflexivity.
  - intros r c Hout. apply Hf.
    + lia.
    + intros i rd Hrd.
      assert (Hlen : length rd = length (headers dt)).
      { rewrite Forall_forall in Hrect. apply Hrect.
        eapply list_elem_of_lookup_2. exact Hrd. }
      pose proof (lookup_lt_Some _ _ _ Hrd). lia.
Qed.

(** C6 at the GDP table (two headers, three rows), added to a fresh
    engine: the registry stays empty, the second header cell holds GDP in
    the header format and the cell below it the first GDP value in the
    table format. *)
Lemma data_table_rows_witness :
  let after := final_sheet (add_data_table (Some gdp_table) init) in
  answer_cells (add_data_table (Some gdp_table) init) = []
  /\ (exists c, cells after !! (3, 4) = Some c
        /\ value c = PyStr "GDP" /\ font c = bold_font /\ fill c = header_fill
        /\ border c = thin_border /\ alignment c = center_align)
  /\ (exists c, cells after !! (4, 4) = Some c
        /\ value c = PyFloat 21.4%float /\ fill c = table_fill
        /\ border c = thin_border /\ alignment c = center_align).
Proof.
  assert (Hrect : Forall (fun row_data : list pyvalue =>
                            length row_data = length (headers gdp_table))
                    (rows gdp_table)) by (repeat constructor).
  destruct (data_table_rows gdp_table init Hrect) as (Ha & Hh & Hd & _).
  cbv zeta. split; [exact Ha|]. split.
  - destruct (Hh 1) as (h & c & Hjh & Hc & Hv & Hrest); [simpl; lia|].
    injection Hjh as <-. exists c. split; [exact Hc|]. split; [exact Hv|].
    exact Hrest.
  - destruct (Hd 0 1) as (rd & v & c & Hrd & Hv & Hc & Hval & _ & Hrest);
      [simpl; lia|simpl; lia|].
    injection Hrd as <-. injection Hv as <-.
    exists c. split; [exact Hc|]. split; [exact Hval|]. exact Hrest.
Defined.

(** C6 as stated fails on a table whose rows do not have one value per
    header: with two headers and a first row of one value, the cell under
    the second header in that row is not written, and the second row, of
    three values, has a formatted cell beyond the last header. *)
Lemma short_row_leaves_cell_unwritten :
  let before := final_sheet (setup_sheets init) in
  let after :=
    final_sheet (add_data_table (Some ragged_table) (setup_sheets init)) in
  length (headers ragged_table) = 2
  /\ length (rows ragged_table) = 2
  /\ cells after !! (4, 4) = cells before !! (4, 4)
  /\ value (get_cell after 4 4) = PyNone
  /\ border (get_cell after 4 4) = default_border
  /\ fill (get_cell after 4 4) = white_fill
  /\ value (get_cell after 5 5) = PyStr "estimate"
  /\ border (get_cell after 5 5) = thin_border
  /\ fill (get_cell after 5 5) = table_fill.
Proof.
  cbv zeta.
  split; [reflexivity|]. split; [reflexivity|].
  split; [vm_compute; reflexivity|]. split; [vm_compute; reflexivity|].
  split; [vm_compute; reflexivity|]. split; [vm_compute; reflexivity|].
  split; [vm_compute; reflexivity|]. split; vm_compute; reflexivity.
Qed.

(** ** Choice validations *)

Lemma contains_char_append c a b :
  contains_char c (a +:+ b) = contains_char c a || contains_char c b.
Proof.
  induction a as [|x a IH]; [reflexivity|].
  change (Ascii.eqb x c || contains_char c (a +:+ b)
          = (Ascii.eqb x c || contains_char c a) || contains_char c b).
  rewrite IH. apply orb_assoc.
Qed.

Lemma replace_char_removes s :
  contains_char dquote (replace_char dquote squote s) = false.
Proof.
  induction s as [|x s IH]; [reflexivity|].
  change (Ascii.eqb (if Ascii.eqb x dquote then squote else x) dquote
          || contains_char dquote (replace_char dquote squote s) = false).
  rewrite IH, orb_false_r.
  destruct (Ascii.eqb x dquote) eqn:E; [reflexivity|exact E].
Qed.

Lemma join_without_char c sep parts :
  contains_char c sep = false ->
  Forall (fun s => contains_char c s = false) parts ->
  contains_char c (join sep parts) = false.
Proof.
  intros Hsep H. unfold join.
  induction H as [|x l Hx Hl IH]; [reflexivity|].
  destruct l as [|y l]; [exact Hx|].
  change (String.concat sep (x :: y :: l))
    with (x +:+ sep +:+ String.concat sep (y :: l)).
  now rewrite !contains_char_append, Hx, Hsep, IH.
Qed.

Lemma drop_closing_quote_append body :
  drop_closing_quote (body +:+ dquote_str) = Some body.
Proof.
  induction body as [|c body IH]; [reflexivity|].
  change (String c body +:+ dquote_str) with (String c (body +:+ dquote_str)).
  cbn [drop_closing_quote].
  destruct (body +:+ dquote_str) eqn:E.
  - destruct body; discriminate E.
  - rewrite IH. reflexivity.
Qed.

Lemma split_at_nonempty sep s : split_at sep s ≠ [].
Proof.
  destruct s as [|c s]; [discriminate|]. cbn [split_at].
  destruct (Ascii.eqb c sep); [discriminate|].
  destruct (split_at sep s); discriminate.
Qed.

Lemma split_at_plain sep s :
  contains_char sep s = false -> split_at sep s = [s].
Proof.
  induction s as [|c s IH]; [reflexivity|].
  cbn [contains_char split_at]. intros H.
  apply orb_false_elim in H as [Hc Hs].
  rewrite Hc, (IH Hs). reflexivity.
Qed.

Lemma split_at_append sep a b :
  contains_char sep a = false ->
  split_at sep (a +:+ String sep b) = a :: split_at sep b.
Proof.
  induction a as [|c a IH].
  - intros _. change (EmptyString +:+ String sep b) with (String sep b).
    cbn [split_at]. now rewrite Ascii.eqb_refl.
  - cbn [contains_char]. intros H. apply orb_false_elim in H as [Hc Ha].
    change (String c a +:+ String sep b) with (String c (a +:+ String sep b)).
    cbn [split_at]. rewrite Hc, (IH Ha). reflexivity.
Qed.

Lemma split_join sep x l :
  Forall (fun o => contains_char sep o = false) (x :: l) ->
  split_at sep (join (String sep EmptyString) (x :: l)) = x :: l.
Proof.
  unfold join. revert x. induction l as [|y l IH]; intros x H.
  - apply split_at_plain. now inversion H.
  - change (String.concat (String sep EmptyString) (x :: y :: l))
      with (x +:+ String sep (String.concat (String sep EmptyString) (y :: l))).
    inversion H as [|? ? Hx Hl]; subst.
    rewrite (split_at_append sep x _ Hx). f_equal. now apply IH.
Qed.

Lemma replace_char_absent old new s :
  contains_char old s = false -> replace_char old new s = s.
Proof.
  induction s as [|c s IH]; [reflexivity|].
  cbn [contains_char replace_char]. intros H.
  apply orb_false_elim in H as [Hc Hs]. now rewrite Hc, (IH Hs).
Qed.

Lemma replace_char_keeps_absent c old new s :
  Ascii.eqb new c = false ->
  contains_char c s = false ->
  contains_char c (replace_char old new s) = false.
Proof.
  intros Hnew. induction s as [|x s IH]; [reflexivity|].
  cbn [contains_char replace_char]. intros H.
  apply orb_false_elim in H as [Hx Hs]. rewrite (IH Hs), orb_false_r.
  now destruct (Ascii.eqb x old).
Qed.

Lemma comma_free_Forall opts :
  forallb comma_free opts = true ->
  Forall (fun o => contains_char "," o = false) opts.
Proof.
  induction opts as [|o opts IH]; [constructor|].
  cbn [forallb]. intros H. apply andb_prop in H as [Ho Hrest].
  constructor; [now apply negb_true_iff in Ho|now apply IH].
Qed.

Lemma safe_options_comma_free opts :
  Forall (fun o => contains_char "," o = false) opts ->
  Forall (fun o => contains_char "," o = false)
    (map (replace_char dquote squote) opts).
Proof.
  induction 1 as [|x l Hx Hl IH]; [constructor|].
  constructor; [now apply replace_char_keeps_absent|exact IH].
Qed.

Lemma options_formula_entries o os :
  forallb comma_free (o :: os) = true ->
  list_entries (options_formula (o :: os))
  = Some (map (replace_char dquote squote) (o :: os)).
Proof.
  intros H. apply comma_free_Forall in H.
  unfold options_formula. cbv zeta.
  change (map (replace_char dquote squote) (o :: os))
    with (replace_char dquote squote o :: map (replace_char dquote squote) os).
  set (safe := replace_char dquote squote o :: map (replace_char dquote squote) os).
  change (dquote_str +:+ join "," safe +:+ dquote_str)
    with (String dquote (join "," safe +:+ dquote_str)).
  cbn [list_entries]. rewrite Ascii.eqb_refl, drop_closing_quote_append.
  cbn [option_map]. f_equal. apply (split_join ","%char).
  subst safe. now apply (safe_options_comma_free (o :: os)).
Qed.

Lemma map_replace_plain opts :
  forallb plain_option opts = true ->
  map (replace_char dquote squote) opts = opts
  /\ forallb comma_free opts = true.
Proof.
  induction opts as [|o opts IH]; [intros _; split; reflexivity|].
  cbn [forallb map]. intros H. apply andb_prop in H as [Ho Hrest].
  unfold plain_option in Ho. apply andb_prop in Ho as [Hcomma Hquote].
  apply negb_true_iff in Hquote.
  destruct (IH Hrest) as [Hm Hf].
  split; [now rewrite Hm, (replace_char_absent _ _ _ Hquote)|].
  now rewrite Hcomma, Hf.
Qed.

Lemma options_formula_well_formed opts :
  exists body,
    options_formula opts = dquote_str +:+ body +:+ dquote_str
    /\ contains_char dquote body = false.
Proof.
  exists (join "," (map (replace_char dquote squote) opts)).
  split; [reflexivity|].
  apply join_without_char; [reflexivity|].
  apply Forall_map, Forall_forall. intros s _. apply replace_char_removes.
Qed.

(** C7, as amended.  [add_simple_question] attaches to the answer cell of a
    true/false question one list validation, whose entries are True and
    False, and to the answer cell of a multiple-choice or dropdown
    question that has at least one option one list validation, whose
    list, between its two double quotes, holds no double quote and whose
    entries, when no option holds a comma, are the options of the
    question with every double quote replaced by an apostrophe: the
    options themselves when they hold no double quote either.  A
    multiple-choice or dropdown question without options gets no
    validation. *)
Theorem choice_validation q n e :
  let addr := fst (add_simple_question q n e) in
  let e' := snd (add_simple_question q n e) in
  exists attached,
    data_validations (final_sheet e')
    = (data_validations (final_sheet e) ++ attached)%list
    /\ (exists a, answer_cells e' = (answer_cells e ++ [a])%list
                  /\ cell_address a = addr)
    /\ (type q = "truefalse" ->
        exists dv, attached = [dv]
          /\ dv_type dv = "list" /\ sqref dv = [addr]
          /\ list_entries (formula1 dv) = Some ["True"; "False"])
    /\ (forall o os,
          in_list (type q) ["dropdown"; "multiplechoice"] = true ->
          options q = Some (o :: os) ->
          exists dv, attached = [dv]
            /\ dv_type dv = "list" /\ sqref dv = [addr]
            /\ (exists body,
                  formula1 dv = dquote_str +:+ body +:+ dquote_str
                  /\ contains_char dquote body = false)
            /\ (forallb comma_free (o :: os) = true ->
                list_entries (formula1 dv)
                = Some (map (replace_char dquote squote) (o :: os)))
            /\ (forallb plain_option (o :: os) = true ->
                list_entries (formula1 dv) = Some (o :: os)))
    /\ (in_list (type q) ["dropdown"; "multiplechoice"] = true ->
        options_truthy (options q) = false -> attached = []).
Proof.
  cbv zeta.
  destruct (add_simple_question_state q n e) as (Haddr & _ & Ha & _ & Hv & _).
  cbv zeta in Haddr, Ha, Hv.
  exists (simple_validations q (coordinate 3 (current_row e + 2))).
  split; [exact Hv|]. rewrite Haddr.
  split; [exists (simple_record n (current_row e) q); now split|].
  unfold simple_validations. split; [|split].
  - intros Htf. rewrite Htf. eexists. split; [reflexivity|].
    split; [reflexivity|]. split; reflexivity.
  - intros o os Hty Hopts. rewrite Hty, Hopts. eexists. split; [reflexivity|].
    split; [reflexivity|]. split; [reflexivity|].
    split; [apply options_formula_well_formed|].
    split; [apply options_formula_entries|].
    intros Hplain. destruct (map_replace_plain (o :: os) Hplain) as [Hm Hf].
    rewrite <- Hm at 2. exact (options_formula_entries o os Hf).
  - intros Hty Hopts. rewrite Hty, Hopts.
    destruct (String.eqb_spec (type q) "truefalse") as [Htf|]; [|reflexivity].
    rewrite Htf in Hty. discriminate Hty.
Qed.

(** C7 at a true/false question, at a dropdown question with the options
    A, B and C, and at a multiple-choice question one option of which
    holds a double quote, each rendered on a fresh engine. *)
Lemma choice_validation_witness :
  (exists dv,
     data_validations (final_sheet (snd (add_simple_question q_truefalse 1 init)))
     = [dv]
     /\ list_entries (formula1 dv) = Some ["True"; "False"])
  /\ (exists dv,
        data_validations (final_sheet (snd (add_simple_question q_choice 1 init)))
        = [dv]
        /\ list_entries (formula1 dv) = Some ["A"; "B"; "C"])
  /\ (exists dv,
        data_validations
          (final_sheet (snd (add_simple_question q_choice_quoted 1 init)))
        = [dv]
        /\ list_entries (formula1 dv) = Some ["5' pipe"; "B"]).
Proof.
  split; [|split].
  - destruct (choice_validation q_truefalse 1 init)
      as (attached & Hv & _ & Htf & _).
    destruct (Htf eq_refl) as (dv & -> & _ & _ & Hent).
    exists dv. split; [exact Hv|exact Hent].
  - destruct (choice_validation q_choice 1 init)
      as (attached & Hv & _ & _ & Hch & _).
    destruct (Hch "A" ["B"; "C"] eq_refl eq_refl)
      as (dv & -> & _ & _ & _ & _ & Hent).
    exists dv. split; [exact Hv|exact (Hent eq_refl)].
  - destruct (choice_validation q_choice_quoted 1 init)
      as (attached & Hv & _ & _ & Hch & _).
    destruct (Hch ("5" +:+ dquote_str +:+ " pipe") ["B"] eq_refl eq_refl)
      as (dv & -> & _ & _ & _ & Hent & _).
    exists dv. split; [exact Hv|exact (Hent eq_refl)].
Defined.

(** C7 as stated fails on a multiple-choice question without options: its
    answer cell gets no validation. *)
Lemma choice_without_options_unconstrained :
  in_list (type q_choice_without_options) choice_types = true
  /\ answer_cells (build_sample [q_choice_without_options])
     = [simple_record 1 2 q_choice_without_options]
  /\ data_validations (final_sheet (build_sample [q_choice_without_options]))
     = [].
Proof. split; [|split]; vm_compute; reflexivity. Qed.

(** An option that holds a comma is cut in two by the list: the entries
    of the validation are then not the options. *)
Lemma option_with_comma_is_cut :
  exists dv,
    data_validations (final_sheet (snd (add_simple_question q_choice_comma 1 init)))
    = [dv]
    /\ options q_choice_comma = Some ["Paris, France"; "Rome"]
    /\ list_entries (formula1 dv) = Some ["Paris"; " France"; "Rome"].
Proof.
  eexists. split; [vm_compute; reflexivity|].
  split; vm_compute; reflexivity.
Qed.

(** C8.  Each rendering operation, [add_question_header],
    [add_data_table] on a table, [add_subquestion] and
    [add_simple_question], leaves the cursor strictly greater than it
    found it, and writes only rows from the cursor it found up to, not
    including, the cursor it leaves: no two of them write the same row. *)
Theorem rendering_advances_cursor n text dt sub_q q e :
  (current_row e < current_row (snd (add_question_header n text e))
   /\ writes_between e (snd (add_question_header n text e)))
  /\ (current_row e < current_row (add_data_table (Some dt) e)
      /\ writes_between e (add_data_table (Some dt) e))
  /\ (current_row e < current_row (snd (add_subquestion sub_q n e))
      /\ writes_between e (snd (add_subquestion sub_q n e)))
  /\ (current_row e < current_row (snd (add_simple_question q n e))
      /\ writes_between e (snd (add_simple_question q n e))).
Proof.
  unfold writes_between.
  split; [|split; [|split]].
  - destruct (add_question_header_state n text e) as (Hr & _ & _ & _ & _ & Hf).
    cbv zeta in Hr, Hf. rewrite Hr. split; [lia|].
    intros r c H. apply Hf. intros [= -> _]. lia.
  - destruct (add_data_table_state dt e) as (Hr & _ & _ & _ & _ & _ & Hf).
    cbv zeta in Hr, Hf. rewrite Hr. split; [lia|].
    intros r c H. apply Hf; [lia|].
    intros i rd Hrd. pose proof (lookup_lt_Some _ _ _ Hrd). lia.
  - destruct (add_subquestion_state sub_q n e) as (_ & Hr & _ & _ & _ & _ & Hf).
    cbv zeta in Hr, Hf. rewrite Hr. split; [lia|].
    intros r c H. apply Hf; intros [= -> _]; lia.
  - destruct (add_simple_question_state q n e) as (_ & Hr & _ & _ & _ & _ & Hf).
    cbv zeta in Hr, Hf. rewrite Hr. split; [lia|].
    intros r c H. apply Hf; intros [= -> _]; lia.
Qed.

(** * Further properties of the layout and the grading sheet *)

Lemma sorted_rows_distinct ws recs : forall rows,
  Forall2 (fun a r => answer_row ws a = Some r) recs rows ->
  StronglySorted lt rows ->
  NoDup (map cell_address recs).
Proof.
  induction recs as [|a recs IH]; intros rows H Hs; [constructor|].
  inversion H as [|? r ? rows' Ha Hrest]; subst.
  inversion Hs as [|? ? Hs' Hlt]; subst.
  simpl. apply NoDup_cons. split; [|now apply (IH rows')].
  intros Hin. apply list_elem_of_fmap in Hin as (b & Hb & Hbin).
  apply list_elem_of_lookup_1 in Hbin as (i & Hi).
  destruct (Forall2_lookup_l _ _ _ i b Hrest Hi) as (r' & Hr' & Hbr).
  unfold answer_row in Ha, Hbr. rewrite Hb in Ha. rewrite Ha in Hbr.
  injection Hbr as <-.
  rewrite Forall_forall in Hlt.
  assert (r < r) by (apply Hlt; eapply list_elem_of_lookup_2; exact Hr').
  lia.
Qed.

(** X1.  In a built workbook no two records of the registry have the same
    cell address: each answer cell is referenced by one grading row only. *)
Theorem registry_addresses_distinct float_repr qs filename exam_title disk :
  NoDup (map cell_address
           (answer_cells
              (fst (build_professional_workbook float_repr qs filename
                      exam_title disk)))).
Proof.
  destruct (build_layout float_repr qs filename exam_title disk)
    as (_ & (rows & Hrows & Hsorted & _) & _).
  cbv zeta in Hrows, Hsorted.
  exact (sorted_rows_distinct _ _ rows Hrows Hsorted).
Qed.

Lemma sub_records_length n subs : forall row,
  length (sub_records n row subs) = length subs.
Proof.
  induction subs as [|s subs IH]; intros row; [reflexivity|].
  simpl. now rewrite IH.
Qed.

Lemma registry_length qs : forall n row,
  length (registry n row qs) = sum_list (map answer_fields qs).
Proof.
  induction qs as [|q qs IH]; intros n row; [reflexivity|].
  simpl. rewrite length_app, IH. f_equal.
  unfold question_records, answer_fields.
  destruct (is_complex q); [apply sub_records_length|reflexivity].
Qed.

(** X2.  A build registers one record per answer field: one for each
    question that is not a data-table or multi-part question, one for each
    sub-question of those that are, and none for a data-table or
    multi-part question without sub-questions. *)
Theorem registry_size float_repr qs filename exam_title disk :
  length (answer_cells
            (fst (build_professional_workbook float_repr qs filename
                    exam_title disk)))
  = sum_list (map answer_fields qs).
Proof.
  destruct (build_layout float_repr qs filename exam_title disk) as (Ha & _).
  cbv zeta in Ha. rewrite Ha. apply registry_length.
Qed.

(** X3.  Column I of the solution sheet lists the question identifiers in
    the order of the questions: the identifier at position [i] is in row
    [2 + i]. *)
Theorem solution_sheet_identifiers float_repr qs filename exam_title disk i id :
  question_ids 1 qs !! i = Some id ->
  cell_value
    (solution_sheet
       (fst (build_professional_workbook float_repr qs filename exam_title disk)))
    (2 + i) 9 = PyStr id.
Proof.
  intros Hi.
  destruct (build_layout float_repr qs filename exam_title disk) as (Hreg & _).
  cbv zeta in Hreg.
  rewrite <- (registry_ids qs 1 2), <- Hreg in Hi.
  apply list_lookup_fmap_Some in Hi as (a & -> & Ha).
  now destruct (build_grading_row float_repr qs filename exam_title disk i a Ha).
Qed.

(** ** The sheet title and the cells above the cursor *)

Lemma write_cell_title row col v style ws :
  title (write_cell row col v style ws) = title ws.
Proof. reflexivity. Qed.

Lemma data_rows_title rs : forall e,
  title (final_sheet (for_each add_data_row rs e)) = title (final_sheet e).
Proof.
  induction rs as [|rd rs IH]; intros e; [reflexivity|].
  rewrite for_each_cons, IH.
  destruct (add_data_row_state rd e) as (_ & _ & _ & Hf). cbv zeta in Hf.
  rewrite Hf. apply write_row_rest.
Qed.

Lemma add_data_table_title dt e :
  title (final_sheet (add_data_table dt e)) = title (final_sheet e).
Proof.
  destruct dt as [dt|]; [|reflexivity].
  unfold add_data_table, add_spacing.
  cbn [final_sheet with_row].
  rewrite data_rows_title. cbn [final_sheet with_row with_final].
  apply (write_row_rest (current_row e + 1) PyStr header_style).
Qed.

Lemma add_subquestion_title sub_q n e :
  title (final_sheet (snd (add_subquestion sub_q n e))) = title (final_sheet e).
Proof. reflexivity. Qed.

Lemma add_simple_question_title q n e :
  title (final_sheet (snd (add_simple_question q n e))) = title (final_sheet e).
Proof.
  unfold add_simple_question. cbn.
  destruct (_ && _); [reflexivity|].
  now destruct (String.eqb _ _).
Qed.

Lemma subquestions_title n subs : forall e,
  title (final_sheet
           (for_each (fun sub_q l => snd (add_subquestion sub_q n l)) subs e))
  = title (final_sheet e).
Proof.
  induction subs as [|s subs IH]; intros e; [reflexivity|].
  rewrite for_each_cons, IH. apply add_subquestion_title.
Qed.

Lemma render_question_title q n e :
  title (final_sheet (render_question q n e)) = title (final_sheet e).
Proof.
  unfold render_question.
  destruct (String.eqb (type q) "data_table" || String.eqb (type q) "multipart");
    [|apply add_simple_question_title].
  assert (H : title (final_sheet
                       match data_table q with
                       | Some dt =>
                           add_data_table (Some dt)
                             (snd (add_question_header n (question q) e))
                       | None => snd (add_question_header n (question q) e)
                       end) = title (final_sheet e)).
  { destruct (data_table q); [rewrite add_data_table_title|]; reflexivity. }
  destruct (subquestions q) as [[|s subs]|]; try exact H.
  now rewrite subquestions_title.
Qed.

Lemma render_questions_keeps qs : forall n e,
  title (final_sheet (snd (render_questions qs (n, e)))) = title (final_sheet e)
  /\ (forall r c, r < current_row e ->
        cells (final_sheet (snd (render_questions qs (n, e)))) !! (r, c)
        = cells (final_sheet e) !! (r, c)).
Proof.
  induction qs as [|q qs IH]; intros n e; [now split|].
  unfold render_questions. rewrite for_each_cons.
  fold (render_questions qs (n + 1, render_question q n e)).
  destruct (IH (n + 1) (render_question q n e)) as (Ht & Hf).
  destruct (render_question_state q n e) as (Hr & _ & _ & Hf1 & _).
  cbv zeta in Hr, Hf1.
  split.
  - rewrite Ht. apply render_question_title.
  - intros r c Hlt. rewrite Hf by lia. now apply Hf1.
Qed.

(** The pieces of a build: the layout after the walk over the questions,
    then the grading sheet, then the two sheet flags. *)
Lemma build_shape float_repr qs filename exam_title disk :
  let layout :=
    fst (build_professional_workbook float_repr qs filename exam_title disk) in
  let walked := snd (render_questions qs (1, titled_layout exam_title)) in
  final_sheet layout = set_protection false (final_sheet walked)
  /\ solution_sheet layout
     = set_sheet_state hidden (solution_sheet (setup_grading float_repr walked))
  /\ answer_cells layout = answer_cells walked
  /\ solution_sheet walked = solution_sheet (setup_sheets init).
Proof.
  cbv zeta. unfold build_professional_workbook.
  change (with_final _ (setup_sheets init)) with (titled_layout exam_title).
  destruct (render_questions_state qs 1 (titled_layout exam_title))
    as (_ & _ & _ & Hs & _).
  cbv zeta in Hs.
  destruct (render_questions qs (1, titled_layout exam_title)) as [n1 e1].
  cbn [snd] in Hs |- *.
  destruct (setup_grading_keeps float_repr e1) as (Hf & _ & Hg).
  cbn [fst final_sheet solution_sheet answer_cells with_final with_solution].
  rewrite Hf, Hg, Hs.
  split; [reflexivity|]. split; [reflexivity|]. split; [reflexivity|].
  apply solution_with_final.
Qed.

Lemma titled_layout_facts exam_title :
  title (final_sheet (titled_layout exam_title)) = "Student"
  /\ current_row (titled_layout exam_title) = 2.
Proof. split; vm_compute; reflexivity. Qed.

(** X4.  In a built workbook the student sheet is titled [Student], and
    the reference in column J of each grading row is [=], that title, [!]
    and the address of the record, which names an answer cell of that
    sheet: every reference of the solution sheet resolves to the answer
    cell it grades. *)
Theorem student_references_resolve float_repr qs filename exam_title disk i a :
  let layout :=
    fst (build_professional_workbook float_repr qs filename exam_title disk) in
  answer_cells layout !! i = Some a ->
  title (final_sheet layout) = "Student"
  /\ cell_value (solution_sheet layout) (2 + i) 10
     = PyStr ("=" +:+ title (final_sheet layout) +:+ "!" +:+ cell_address a)
  /\ exists row, answer_row (final_sheet layout) a = Some row.
Proof.
  cbv zeta. intros Hi.
  destruct (build_shape float_repr qs filename exam_title disk)
    as (Hf & _ & _ & _).
  cbv zeta in Hf.
  assert (Ht : title
                 (final_sheet
                    (fst (build_professional_workbook float_repr qs filename
                            exam_title disk))) = "Student").
  { rewrite Hf. cbn [title set_protection].
    destruct (render_questions_keeps qs 1 (titled_layout exam_title)) as (Ht & _).
    rewrite Ht. apply titled_layout_facts. }
  split; [exact Ht|]. split.
  - rewrite Ht.
    now destruct (build_grading_row float_repr qs filename exam_title disk i a Hi)
      as (_ & H10 & _).
  - destruct (build_layout float_repr qs filename exam_title disk)
      as (_ & (rows & Hrows & _) & _).
    cbv zeta in Hrows.
    destruct (Forall2_lookup_l _ _ _ i a Hrows Hi) as (row & _ & Hrow).
    now exists row.
Qed.

(** X5.  The title given to the build is what cell B1 of the student
    sheet holds in the end, in the title font, centred, on white: no
    question is ever rendered on row 1. *)
Theorem title_cell_kept float_repr qs filename exam_title disk :
  exists c,
    cells (final_sheet
             (fst (build_professional_workbook float_repr qs filename
                     exam_title disk))) !! (1, 2) = Some c
    /\ value c = PyStr exam_title /\ font c = title_font
    /\ alignment c = center_align /\ fill c = white_fill.
Proof.
  destruct (build_shape float_repr qs filename exam_title disk)
    as (Hf & _ & _ & _).
  cbv zeta in Hf. rewrite Hf. cbn [cells set_protection].
  destruct (render_questions_keeps qs 1 (titled_layout exam_title)) as (_ & Hfr).
  rewrite Hfr by (rewrite (proj2 (titled_layout_facts exam_title)); lia).
  unfold titled_layout. cbn [final_sheet with_final].
  rewrite write_cell_same. eexists. split; [reflexivity|].
  now repeat split.
Qed.

(** ** The total score and the header row of the solution sheet *)

Lemma setup_grading_total float_repr e :
  let n := length (answer_cells e) in
  let ws' := solution_sheet (setup_grading float_repr e) in
  (forall r c, r < 2 \/ 2 + n <= r ->
     n = 0 \/ r ≠ n + 3 \/ (c ≠ 11 /\ c ≠ 12) ->
     cells ws' !! (r, c) = cells (solution_sheet e) !! (r, c))
  /\ (0 < n ->
      cell_value ws' (n + 3) 11 = PyStr "Total Score:"
      /\ cell_value ws' (n + 3) 12
         = PyStr ("=SUM(L2:L" +:+ str_nat (n + 2) +:+ ")")).
Proof.
  cbv zeta. unfold setup_grading.
  destruct (grading_loop_state float_repr (answer_cells e) (solution_sheet e) 2)
    as (Hn & _ & Hfr).
  cbv zeta in Hn, Hfr.
  destruct (for_each (grading_step float_repr) (answer_cells e)
              (solution_sheet e, 2)) as [ws r0].
  cbn [fst snd] in Hn, Hfr. subst r0.
  destruct (answer_cells e) as [|a0 rest].
  - cbn [solution_sheet with_solution]. split; [|simpl; lia].
    intros r c Hr _. now apply Hfr.
  - cbn [solution_sheet with_solution]. simpl length in *.
    replace (2 + S (length rest) + 1) with (S (length rest) + 3) by lia.
    replace (2 + S (length rest)) with (S (length rest) + 2) in * by lia.
    split.
    + intros r c Hr Hne.
      rewrite !write_cell_other by (intros [= -> ->]; lia).
      apply Hfr. lia.
    + intros _. unfold cell_value. split.
      * rewrite get_cell_write_other by (intros [=]; lia).
        now rewrite get_cell_write_same.
      * now rewrite get_cell_write_same.
Qed.

(** X6.  With n > 0 records, the solution sheet of a built workbook has
    the label [Total Score:] and the formula [=SUM(L2:L(n+2))] in row
    n + 3; the summed range holds the n grading rows 2 .. n + 1 and the
    empty row n + 2, the total itself is below the range, and nothing is
    written further down.  Without records there is no total: the sheet
    is empty below its header row. *)
Theorem total_score_row float_repr qs filename exam_title disk :
  let layout :=
    fst (build_professional_workbook float_repr qs filename exam_title disk) in
  let ws := solution_sheet layout in
  let n := length (answer_cells layout) in
  match n with
  | O => forall r c, 2 <= r -> cells ws !! (r, c) = None
  | S _ =>
      cell_value ws (n + 3) 11 = PyStr "Total Score:"
      /\ cell_value ws (n + 3) 12
         = PyStr ("=SUM(L2:L" +:+ str_nat (n + 2) +:+ ")")
      /\ (forall c, cells ws !! (n + 2, c) = None)
      /\ (forall r c, n + 3 < r -> cells ws !! (r, c) = None)
  end.
Proof.
  cbv zeta.
  destruct (build_shape float_repr qs filename exam_title disk)
    as (_ & Hs & Ha & Hs0).
  cbv zeta in Hs, Ha, Hs0. rewrite Hs, Ha.
  set (walked := snd (render_questions qs (1, titled_layout exam_title))) in *.
  destruct (setup_grading_total float_repr walked) as (Hfr & Htot).
  cbv zeta in Hfr, Htot. rewrite Hs0 in Hfr.
  change (cells (set_sheet_state hidden ?w)) with (cells w).
  change (cell_value (set_sheet_state hidden ?w) ?r ?c) with (cell_value w r c).
  destruct (length (answer_cells walked)) as [|m] eqn:En.
  - intros r c Hr. rewrite Hfr by lia. now apply solution_sheet_blank.
  - destruct Htot as (H11 & H12); [lia|].
    split; [exact H11|]. split; [exact H12|]. split.
    + intros c. rewrite Hfr by lia. apply solution_sheet_blank. lia.
    + intros r c Hr. rewrite Hfr by lia. apply solution_sheet_blank. lia.
Qed.

Lemma solution_headers_initial :
  map (fun col => cell_value (solution_sheet (setup_sheets init)) 1 col)
    [9; 10; 11; 12]
  = [PyStr "Question"; PyStr "Student"; PyStr "Solution"; PyStr "Points"].
Proof. vm_compute. reflexivity. Qed.

(** X7.  The header row of the solution sheet, [Question], [Student],
    [Solution], [Points] in columns I to L of row 1, is still there after
    the grading rows and the total are written, and the sheet is hidden. *)
Theorem solution_header_row float_repr qs filename exam_title disk :
  let ws :=
    solution_sheet
      (fst (build_professional_workbook float_repr qs filename exam_title disk)) in
  map (fun col => cell_value ws 1 col) [9; 10; 11; 12]
  = [PyStr "Question"; PyStr "Student"; PyStr "Solution"; PyStr "Points"]
  /\ sheet_state ws = hidden.
Proof.
  cbv zeta.
  destruct (build_shape float_repr qs filename exam_title disk)
    as (_ & Hs & _ & Hs0).
  cbv zeta in Hs, Hs0. rewrite Hs. split; [|reflexivity].
  set (walked := snd (render_questions qs (1, titled_layout exam_title))) in *.
  destruct (setup_grading_total float_repr walked) as (Hfr & _).
  cbv zeta in Hfr. rewrite Hs0 in Hfr.
  rewrite <- solution_headers_initial.
  cbn [map]. unfold cell_value.
  change (get_cell (set_sheet_state hidden ?w) ?r ?c) with (get_cell w r c).
  rewrite !(get_cell_same (solution_sheet (setup_sheets init))
              (solution_sheet (setup_grading float_repr walked)))
    by (apply Hfr; lia).
  reflexivity.
Qed.

(** ** The validations of the student sheet *)

Lemma validations_extend e e' new added :
  data_validations (final_sheet e')
  = (data_validations (final_sheet e) ++ new)%list ->
  answer_cells e' = (answer_cells e ++ added)%list ->
  Forall (validation_sound (answer_cells e')) new ->
  Forall (validation_sound (answer_cells e)) (data_validations (final_sheet e)) ->
  Forall (validation_sound (answer_cells e')) (data_validations (final_sheet e')).
Proof.
  intros Hv Ha Hnew Hold. rewrite Hv. apply Forall_app. split; [|exact Hnew].
  eapply Forall_impl; [exact Hold|].
  intros dv (Hty & Hbl & a & t & Hin & Hsq & Hat & Hch).
  split; [exact Hty|]. split; [exact Hbl|].
  exists a, t. rewrite Ha. repeat split; try assumption.
  apply elem_of_app. now left.
Qed.

Lemma simple_validations_sound q n row recs :
  Forall (validation_sound (recs ++ [simple_record n row q])%list)
    (simple_validations q (coordinate 3 (row + 2))).
Proof.
  assert (Hin : simple_record n row q ∈ (recs ++ [simple_record n row q])%list)
    by (apply elem_of_app; right; apply list_elem_of_singleton; reflexivity).
  assert (Hsound : forall formula,
    in_list (type q) choice_types = true ->
    Forall (validation_sound (recs ++ [simple_record n row q])%list)
      [list_validation formula (coordinate 3 (row + 2))]).
  { intros formula Hch. repeat constructor.
    exists (simple_record n row q), (type q). now repeat split. }
  unfold simple_validations.
  destruct (in_list (type q) ["dropdown"; "multiplechoice"]
            && options_truthy (options q)) eqn:E1.
  - apply Hsound. apply andb_true_iff in E1 as (E1 & _).
    unfold in_list, choice_types in *. cbn [existsb] in *.
    destruct (String.eqb (type q) "dropdown"); [now rewrite !orb_true_r|].
    destruct (String.eqb (type q) "multiplechoice"); [now rewrite orb_true_r|].
    discriminate E1.
  - destruct (String.eqb (type q) "truefalse") eqn:E2; [|constructor].
    apply Hsound. unfold in_list, choice_types. cbn [existsb]. now rewrite E2.
Qed.

Lemma render_question_validations q n e :
  Forall (validation_sound (answer_cells e)) (data_validations (final_sheet e)) ->
  Forall (validation_sound (answer_cells (render_question q n e)))
    (data_validations (final_sheet (render_question q n e))).
Proof.
  intros H. unfold render_question.
  destruct (String.eqb (type q) "data_table" || String.eqb (type q) "multipart").
  - destruct (add_question_header_state n (question q) e)
      as (_ & Ha1 & _ & Hv1 & _).
    cbv zeta in Ha1, Hv1.
    set (e1 := snd (add_question_header n (question q) e)) in *.
    assert (H1 : Forall (validation_sound (answer_cells e1))
                   (data_validations (final_sheet e1)))
      by (rewrite Ha1, Hv1; exact H).
    assert (H2 : Forall
                   (validation_sound
                      (answer_cells
                         match data_table q with
                         | Some dt => add_data_table (Some dt) e1
                         | None => e1
                         end))
                   (data_validations
                      (final_sheet
                         match data_table q with
                         | Some dt => add_data_table (Some dt) e1
                         | None => e1
                         end))).
    { destruct (data_table q) as [dt|]; [|exact H1].
      destruct (add_data_table_state dt e1) as (_ & Ha & _ & Hv & _).
      cbv zeta in Ha, Hv. now rewrite Ha, Hv. }
    destruct (subquestions q) as [[|s subs]|]; try exact H2.
    match goal with
    | |- context [for_each ?f ?l ?x] =>
        destruct (subquestions_state n l x) as (_ & Ha3 & _ & Hv3 & _)
    end.
    cbv zeta in Ha3, Hv3.
    eapply validations_extend; [|exact Ha3| |exact H2].
    + rewrite Hv3. symmetry. apply app_nil_r.
    + constructor.
  - destruct (add_simple_question_state q n e) as (_ & _ & Ha & _ & Hv & _).
    cbv zeta in Ha, Hv.
    eapply validations_extend; [exact Hv|exact Ha| |exact H].
    rewrite Ha. apply simple_validations_sound.
Qed.

Lemma render_questions_validations qs : forall n e,
  Forall (validation_sound (answer_cells e)) (data_validations (final_sheet e)) ->
  Forall (validation_sound (answer_cells (snd (render_questions qs (n, e)))))
    (data_validations (final_sheet (snd (render_questions qs (n, e))))).
Proof.
  induction qs as [|q qs IH]; intros n e H; [exact H|].
  unfold render_questions. rewrite for_each_cons.
  fold (render_questions qs (n + 1, render_question q n e)).
  apply IH. now apply render_question_validations.
Qed.

Lemma titled_layout_validations exam_title :
  data_validations (final_sheet (titled_layout exam_title)) = [].
Proof. vm_compute. reflexivity. Qed.

(** X8.  Every validation of the student sheet of a built workbook is a
    list validation that accepts blanks and is attached to exactly one
    cell, the answer cell of a registered record whose type is true/false,
    multiple-choice or dropdown: the answer cells of sub-questions and of
    numerical questions are never constrained. *)
Theorem validations_on_choice_answers float_repr qs filename exam_title disk :
  let layout :=
    fst (build_professional_workbook float_repr qs filename exam_title disk) in
  Forall (validation_sound (answer_cells layout))
    (data_validations (final_sheet layout)).
Proof.
  cbv zeta.
  destruct (build_shape float_repr qs filename exam_title disk)
    as (Hf & _ & Ha & _).
  cbv zeta in Hf, Ha. rewrite Hf, Ha. cbn [data_validations set_protection].
  apply render_questions_validations.
  rewrite titled_layout_validations. constructor.
Qed.

(** ** Tables whose rows do not match the headers *)

(** X9.  [add_data_table] checks no length: row [i] of the table is
    written with exactly as many cells as it has values, from column C
    on, whatever the number of headers.  A short row leaves the cells
    under the remaining headers as they were, a long row runs past the
    last header. *)
Theorem data_row_as_long_as_given dt e i row_data :
  let top := current_row e in
  let before := final_sheet e in
  let after := final_sheet (add_data_table (Some dt) e) in
  rows dt !! i = Some row_data ->
  (forall j v, row_data !! j = Some v ->
     cells after !! (top + 2 + i, 3 + j)
     = Some (data_style (store_value v (get_cell before (top + 2 + i) (3 + j)))))
  /\ (forall c, c < 3 \/ 3 + length row_data <= c ->
        cells after !! (top + 2 + i, c) = cells before !! (top + 2 + i, c)).
Proof.
  cbv zeta. intros Hi.
  destruct (add_data_table_state dt e) as (_ & _ & _ & _ & _ & Hd & Hf).
  cbv zeta in Hd, Hf. split.
  - intros j v Hj. now apply (Hd i j row_data v).
  - intros c Hc. apply Hf; [left; lia|].
    intros i' rd Hrd.
    destruct (Nat.eq_dec i' i) as [->|Hne]; [|left; lia].
    rewrite Hi in Hrd. injection Hrd as <-. right. exact Hc.
Qed.

(** ** Formula selection *)

(** X10.  In a built workbook, a record whose type is neither numerical
    nor a choice type gets the default 0.01 formula whatever its
    tolerance: a tolerance is used for the numerical type only. *)
Theorem tolerance_only_for_numerical float_repr qs filename exam_title disk i a :
  let layout :=
    fst (build_professional_workbook float_repr qs filename exam_title disk) in
  answer_cells layout !! i = Some a ->
  question_type a ≠ "numerical" ->
  in_list (question_type a) choice_types = false ->
  cell_value (solution_sheet layout) (2 + i) 12
  = PyStr (default_formula_text (2 + i)).
Proof.
  cbv zeta. intros Hi Hnum Hch.
  destruct (build_grading_row float_repr qs filename exam_title disk i a Hi)
    as (_ & _ & _ & H12).
  rewrite H12. unfold grading_formula.
  apply String.eqb_neq in Hnum. now rewrite Hnum, andb_false_r, Hch.
Qed.

(** * The clean-up of the reply and of the prompt *)

Lemma find_first_shift p s : forall i,
  find_first p (S i) s = option_map S (find_first p i s).
Proof.
  induction s as [|c s IH]; intros i; [reflexivity|].
  cbn [find_first]. destruct (p c); [reflexivity|apply IH].
Qed.

Lemma find_last_end_shift p s : forall i,
  find_last_end p (S i) s = option_map S (find_last_end p i s).
Proof.
  induction s as [|c s IH]; intros i; [reflexivity|].
  cbn [find_last_end]. rewrite (IH (S i)), (IH i).
  destruct (find_last_end p i s); [reflexivity|].
  cbn [option_map]. now destruct (p c).
Qed.

Lemma open_not_close c : is_open c = true -> is_close c = false.
Proof.
  unfold is_open, is_close. intros H.
  apply orb_true_iff in H as [H|H]; apply Ascii.eqb_eq in H; subst; reflexivity.
Qed.

Lemma slice_from_start e c s :
  slice 0 (S e) (String c s) = String c (slice 0 e s).
Proof. unfold slice. now rewrite !Nat.sub_0_r. Qed.

Lemma slice_skip a b c s :
  slice (S a) (S b) (String c s) = slice a b s.
Proof. reflexivity. Qed.

Lemma substring_none n : forall s, String.substring n 0 s = EmptyString.
Proof.
  induction n as [|n IH]; intros s; destruct s; try reflexivity.
  cbn [String.substring]. apply IH.
Qed.

(** The text up to the end of the last match. *)
Lemma find_last_end_split p s : forall e,
  find_last_end p 0 s = Some e ->
  exists body post,
    s = body +:+ post /\ slice 0 e s = body
    /\ find_last_end p 0 post = None
    /\ option_map p (last_char body) = Some true.
Proof.
  induction s as [|c s IH]; intros e H; [discriminate|].
  cbn [find_last_end] in H. rewrite find_last_end_shift in H.
  destruct (find_last_end p 0 s) as [e'|] eqn:E; cbn [option_map] in H.
  - injection H as <-.
    destruct (IH e' eq_refl) as (body & post & Hs & Hb & Hp & Hl).
    exists (String c body), post.
    split; [change (String c s = String c (body +:+ post)); now f_equal|].
    split; [rewrite slice_from_start; now rewrite Hb|].
    split; [exact Hp|].
    destruct body as [|b body]; [discriminate Hl|exact Hl].
  - destruct (p c) eqn:Ec; [|discriminate]. injection H as <-.
    exists (String c EmptyString), s.
    split; [reflexivity|]. split; [|split; [exact E|cbn; now rewrite Ec]].
    rewrite slice_from_start. unfold slice. now rewrite substring_none.
Qed.

Lemma cut_shape raw : forall start_idx end_idx,
  find_first is_open 0 raw = Some start_idx ->
  find_last_end is_close 0 raw = Some end_idx ->
  start_idx < end_idx ->
  exists before body after,
    raw = before +:+ body +:+ after
    /\ cut_to_brackets raw = body
    /\ find_first is_open 0 before = None
    /\ find_last_end is_close 0 after = None
    /\ option_map is_open (first_char body) = Some true
    /\ option_map is_close (last_char body) = Some true.
Proof.
  induction raw as [|c raw IH]; intros s e Hs He Hlt; [discriminate|].
  unfold cut_to_brackets. rewrite Hs, He.
  cbn [find_first] in Hs.
  destruct (is_open c) eqn:Ec.
  - injection Hs as <-.
    destruct (find_last_end_split is_close _ e He)
      as (body & after & Hraw & Hb & Hp & Hl).
    exists EmptyString, body, after.
    split; [exact Hraw|]. split; [exact Hb|]. split; [reflexivity|].
    split; [exact Hp|]. split; [|exact Hl].
    destruct body as [|b body]; [discriminate Hl|].
    cbn [String.append] in Hraw. injection Hraw as <- _.
    cbn. now rewrite Ec.
  - rewrite find_first_shift in Hs.
    destruct (find_first is_open 0 raw) as [s'|] eqn:Es; [|discriminate].
    cbn [option_map] in Hs. injection Hs as <-.
    cbn [find_last_end] in He. rewrite find_last_end_shift in He.
    destruct (find_last_end is_close 0 raw) as [e'|] eqn:Ee;
      cbn [option_map] in He.
    + injection He as <-.
      destruct (IH s' e' eq_refl eq_refl) as
        (before & body & after & Hraw & Hcut & Hb & Ha & Hf & Hl); [lia|].
      exists (String c before), body, after.
      split; [change (String c raw = String c (before +:+ body +:+ after));
              now f_equal|].
      split.
      * rewrite slice_skip. unfold cut_to_brackets in Hcut.
        now rewrite Es, Ee in Hcut.
      * split; [|now repeat split].
        cbn [find_first]. rewrite Ec, find_first_shift, Hb. reflexivity.
    + destruct (is_close c); [|discriminate]. injection He as <-. lia.
Qed.

Lemma cut_reversed raw start_idx end_idx :
  find_first is_open 0 raw = Some start_idx ->
  find_last_end is_close 0 raw = Some end_idx ->
  end_idx <= start_idx ->
  cut_to_brackets raw = EmptyString.
Proof.
  intros Hs He Hle. unfold cut_to_brackets, slice. rewrite Hs, He.
  replace (end_idx - start_idx) with 0 by lia. apply substring_none.
Qed.

Lemma find_last_end_at_end p s : forall i,
  option_map p (last_char s) = Some true ->
  find_last_end p i s = Some (i + String.length s).
Proof.
  induction s as [|c s IH]; intros i H; [discriminate|].
  cbn [find_last_end String.length].
  destruct s as [|d s].
  - cbn in H |- *. injection H as ->. f_equal. lia.
  - rewrite (IH (S i)) by exact H. f_equal. cbn [String.length]. lia.
Qed.

Lemma slice_whole s : slice 0 (String.length s) s = s.
Proof.
  induction s as [|c s IH]; [reflexivity|].
  cbn [String.length]. now rewrite slice_from_start, IH.
Qed.

Lemma cut_keeps_json raw :
  option_map is_open (first_char raw) = Some true ->
  option_map is_close (last_char raw) = Some true ->
  cut_to_brackets raw = raw.
Proof.
  intros Hf Hl. unfold cut_to_brackets.
  rewrite (find_last_end_at_end is_close raw 0 Hl).
  destruct raw as [|c raw]; [discriminate|].
  cbn in Hf. injection Hf as Hc.
  cbn [find_first]. rewrite Hc. apply slice_whole.
Qed.

(** X15.  The clean-up is idempotent: cleaning a cleaned reply changes
    nothing. *)
Theorem cut_to_brackets_idempotent raw :
  cut_to_brackets (cut_to_brackets raw) = cut_to_brackets raw.
Proof.
  destruct (find_first is_open 0 raw) as [s|] eqn:Es.
  2: { assert (H : cut_to_brackets raw = raw)
         by (unfold cut_to_brackets; now rewrite Es).
       now rewrite !H. }
  destruct (find_last_end is_close 0 raw) as [e|] eqn:Ee.
  2: { assert (H : cut_to_brackets raw = raw)
         by (unfold cut_to_brackets; now rewrite Es, Ee).
       now rewrite !H. }
  destruct (Nat.lt_ge_cases s e) as [Hlt|Hge].
  - destruct (cut_shape raw s e Es Ee Hlt)
      as (before & body & after & _ & Hcut & _ & _ & Hf & Hl).
    rewrite Hcut. now apply cut_keeps_json.
  - now rewrite (cut_reversed raw s e Es Ee Hge).
Qed.

Lemma ascii_only_fixed s : ascii_only (ascii_only s) = ascii_only s.
Proof.
  induction s as [|c s IH]; [reflexivity|].
  cbn [ascii_only]. destruct (Nat.ltb (nat_of_ascii c) 128) eqn:E; [|exact IH].
  cbn [ascii_only]. now rewrite E, IH.
Qed.

Lemma ascii_only_length s : String.length (ascii_only s) <= String.length s.
Proof.
  induction s as [|c s IH]; [reflexivity|].
  cbn [ascii_only]. destruct (Nat.ltb (nat_of_ascii c) 128);
    cbn [String.length]; lia.
Qed.

(** X16.  The handler refuses exactly the empty prompt, with status 400.
    Any other prompt is sent with its characters outside ASCII removed:
    the text sent is pure ASCII, no longer than the prompt, the prompt
    itself when that is pure ASCII, and empty when the prompt has no
    ASCII character at all, since emptiness is tested before the
    clean-up. *)
Theorem prepare_prompt_cases prompt :
  match prepare_prompt prompt with
  | inl err => prompt = EmptyString /\ err = (400, "Prompt is required")
  | inr text =>
      prompt ≠ EmptyString
      /\ text = ascii_only prompt
      /\ ascii_only text = text
      /\ String.length text <= String.length prompt
  end.
Proof.
  destruct prompt as [|c rest]; [now split|].
  cbn [prepare_prompt].
  split; [discriminate|]. split; [reflexivity|].
  split; [apply ascii_only_fixed|apply ascii_only_length].
Qed.

(** X12.  When the reply has an opening bracket before its last closing
    bracket, the clean-up keeps exactly the text from the first opening
    bracket to the last closing bracket: what it drops in front has no
    opening bracket, what it drops behind has no closing bracket, and
    what it keeps starts with [{] or [[] and ends with [}] or []].  It
    does not check that the two brackets match. *)
Theorem cut_to_brackets_shape raw start_idx end_idx :
  find_first is_open 0 raw = Some start_idx ->
  find_last_end is_close 0 raw = Some end_idx ->
  start_idx < end_idx ->
  exists before body after,
    raw = before +:+ body +:+ after
    /\ cut_to_brackets raw = body
    /\ find_first is_open 0 before = None
    /\ find_last_end is_close 0 after = None
    /\ option_map is_open (first_char body) = Some true
    /\ option_map is_close (last_char body) = Some true.
Proof. apply cut_shape. Qed.

(** X13.  When the last closing bracket of the reply comes before its
    first opening bracket, the clean-up leaves the empty text. *)
Theorem cut_to_brackets_reversed raw start_idx end_idx :
  find_first is_open 0 raw = Some start_idx ->
  find_last_end is_close 0 raw = Some end_idx ->
  end_idx <= start_idx ->
  cut_to_brackets raw = EmptyString.
Proof. apply cut_reversed. Qed.

(** X14.  A reply that already starts with an opening bracket and ends
    with a closing bracket goes through the clean-up unchanged. *)
Theorem cut_to_brackets_keeps_json raw :
  option_map is_open (first_char raw) = Some true ->
  option_map is_close (last_char raw) = Some true ->
  cut_to_brackets raw = raw.
Proof. apply cut_keeps_json. Qed.

(** * The properties above at sample inputs *)

(** X3 at a true/false question followed by the GDP question: the second
    grading row carries the identifier [2A]. *)
Lemma solution_sheet_identifiers_witness :
  cell_value (solution_sheet (build_sample [q_truefalse; q_gdp])) 3 9
  = PyStr "2A".
Proof.
  apply (solution_sheet_identifiers sample_repr [q_truefalse; q_gdp]
           "Professional_Exam.xlsx" "Professional Exam" ∅ 1 "2A").
  reflexivity.
Defined.

(** X4 at the same workbook: the second grading row refers to
    [Student!D15], the answer cell of sub-question A. *)
Lemma student_references_resolve_witness :
  cell_value (solution_sheet (build_sample [q_truefalse; q_gdp])) 3 10
  = PyStr "=Student!D15".
Proof.
  destruct (student_references_resolve sample_repr [q_truefalse; q_gdp]
              "Professional_Exam.xlsx" "Professional Exam" ∅ 1
              (sub_record 2 14 sub_growth)) as (Ht & Hj & _);
    [vm_compute; reflexivity|].
  rewrite Ht in Hj. exact Hj.
Defined.

(** X9 at a table with two headers whose first row has one value: the
    cell under the second header is left as it was. *)
Lemma data_row_as_long_as_given_witness :
  cells (final_sheet (add_data_table (Some ragged_table) init)) !! (4, 4)
  = cells (final_sheet init) !! (4, 4).
Proof.
  destruct (data_row_as_long_as_given ragged_table init 0 [PyInt 2020] eq_refl)
    as (_ & Hrest).
  apply (Hrest 4). right. simpl. lia.
Defined.

(** X10 at a short-answer question with tolerance 0.05: its formula is
    the default one. *)
Lemma tolerance_only_for_numerical_witness :
  cell_value (solution_sheet (build_sample [q_short_answer])) 2 12
  = PyStr (default_formula_text 2).
Proof.
  apply (tolerance_only_for_numerical sample_repr [q_short_answer]
           "Professional_Exam.xlsx" "Professional Exam" ∅ 0
           (simple_record 1 2 q_short_answer)).
  - vm_compute. reflexivity.
  - discriminate.
  - reflexivity.
Defined.

(** X12 at a reply with text around a JSON array. *)
Lemma cut_to_brackets_shape_witness :
  exists before body after,
    "Sure: [1, 2, 3] done." = before +:+ body +:+ after
    /\ cut_to_brackets "Sure: [1, 2, 3] done." = body
    /\ find_first is_open 0 before = None
    /\ find_last_end is_close 0 after = None
    /\ option_map is_open (first_char body) = Some true
    /\ option_map is_close (last_char body) = Some true.
Proof.
  apply (cut_to_brackets_shape "Sure: [1, 2, 3] done." 6 15).
  - reflexivity.
  - reflexivity.
  - lia.
Defined.

(** X13 at a reply whose only closing bracket comes first. *)
Lemma cut_to_brackets_reversed_witness :
  cut_to_brackets "} and then {" = EmptyString.
Proof.
  apply (cut_to_brackets_reversed "} and then {" 11 1).
  - reflexivity.
  - reflexivity.
  - lia.
Defined.

(** X14 at a bare JSON array. *)
Lemma cut_to_brackets_keeps_json_witness :
  cut_to_brackets "[1, 2]" = "[1, 2]".
Proof.
  apply (cut_to_brackets_keeps_json "[1, 2]"); reflexivity.
Defined.
